(** * git-lfs [commands/commands.go]: diagnostic capture and panic logs

    A shallow embedding of the message and panic-log routines of
    [commands.go] ([Error], [Print], [Exit], [ExitWithError], [LoggedError],
    [Panic], [handlePanic], [logPanic], [logPanicToWriter]) and the
    properties of them that the specification states, and of [Debug],
    [requireStdin], [requireInRepo], [printHelp], [help] and [usage].

    Modelling conventions.
    - Go [string] and [[]byte] values are [string]s; [LF] is the newline
      that [fmt.Fprintln] appends.
    - The process state touched by the routines is a [World]: the
      [Debugging] flag, the contents of [ErrorBuffer], the bytes received so
      far by the real standard streams, and the regular files written.
    - Everything the file imports from other packages (errutil, config, git,
      lfs, os, time, filepath, and [fmt.Sprintf] on caller-supplied formats)
      is a field of [Env]; the theorems hold for every [Env].
    - Writes to the real streams, to the buffer and to an opened file
      succeed, so that [io.MultiWriter] always reaches its second writer;
      the source ignores the results of all its writes.
    - A routine is a function from the world to an [outcome]: it returns,
      or the process ends in [os.Exit], or in a run-time panic (a nil
      [error] dereferenced). *)

From Stdlib Require Import ZArith String Ascii List Bool Lia.
From stdpp Require Import gmap strings list fin_maps pretty.

Local Open Scope string_scope.

(** ** Strings *)

Definition LF : string := String "010"%char EmptyString.

(** [strings.Join(elems, sep)]. *)
Fixpoint strings_Join (elems : list string) (sep : string) : string :=
  match elems with
  | [] => ""
  | [e] => e
  | e :: rest => e +:+ sep +:+ strings_Join rest sep
  end.

(** The concatenation of a list of byte strings. *)
Fixpoint concat_bytes (l : list string) : string :=
  match l with
  | [] => ""
  | s :: l' => s +:+ concat_bytes l'
  end.

(** The lines of a text: [strings.Split(s, "\n")]. *)
Fixpoint lines (s : string) : list string :=
  match s with
  | EmptyString => [""]
  | String c s' =>
      if Ascii.eqb c "010"%char then "" :: lines s'
      else match lines s' with
           | l :: ls => String c l :: ls
           | [] => [String c ""]
           end
  end.

(** ** Errors *)

(** The methods of the [ErrorWithStack] interface. *)
Record ErrorWithStack := {
  Context : gmap string string;
  InnerError : string;
  Stack : string
}.

(** A non-nil [error] value: its [Error()] text and, when its dynamic type
    implements [ErrorWithStack], those methods.  A possibly nil [error] is
    an [option error]. *)
Record error := {
  error_Error : string;
  asErrorWithStack : option ErrorWithStack
}.

(** An [interface{}] operand of a formatting call. *)
Inductive value :=
| VString (s : string)
| VInt (i : Z)
| VError (e : error).

(** ** The process state and its surroundings *)

Record World := {
  Debugging : bool;
  ErrorBuffer : string;
  Stdout : string;
  Stderr : string;
  Files : gmap string string
}.

Record Env := {
  (* fmt.Sprintf on a format and operands chosen by the caller *)
  Sprintf : string → list value → string;
  (* errutil *)
  IsFatalError : option error → bool;
  GetInnerError : option error → option error;
  errutil_Stack : string;
  (* config *)
  VersionDesc : string;
  LocalLogDir : string;
  (* git.Config.Version() returns (string, error) *)
  git_Config_Version : string * option error;
  (* lfs.Environ() *)
  Environ : list string;
  (* os.Args, which always holds the program name *)
  os_Args0 : string;
  os_ArgsRest : list string;
  (* the answers of os.MkdirAll(path, 0755) and os.Create(path) *)
  os_MkdirAll : string → option error;
  os_Create : string → option error;
  (* time.Now().Format("20060102T150405.999999999") *)
  time_Now_Format : string;
  (* path/filepath; Join is empty only when all its elements are *)
  filepath_Join : string → string → string;
  filepath_Base : string → string;
  filepath_Join_nonempty : ∀ dir name, name ≠ "" → filepath_Join dir name ≠ "";
  (* the order in which a range statement visits a map *)
  rangeMap : gmap string string → list (string * string);
  rangeMap_perm : ∀ m, rangeMap m ≡ₚ map_to_list m
}.

Definition os_Args (E : Env) : list string := os_Args0 E :: os_ArgsRest E.

(** ** Outcomes and sequencing *)

Inductive outcome (A : Type) :=
| Returned (a : A) (w : World)
| Exited (code : Z) (w : World)
| Panicked (w : World).
Arguments Returned {A} a w.
Arguments Exited {A} code w.
Arguments Panicked {A} w.

Definition M (A : Type) : Type := World → outcome A.

#[global] Instance M_ret : MRet M := λ A a w, Returned a w.

#[global] Instance M_bind : MBind M := λ A B f m w,
  match m w with
  | Returned a w' => f a w'
  | Exited code w' => Exited code w'
  | Panicked w' => Panicked w'
  end.

(** The world in which an outcome leaves the process. *)
Definition worldOf {A} (o : outcome A) : World :=
  match o with
  | Returned _ w => w
  | Exited _ w => w
  | Panicked w => w
  end.

Definition gets {A} (f : World → A) : M A := λ w, Returned (f w) w.

(** [os.Exit(code)]. *)
Definition os_Exit {A} (code : Z) : M A := λ w, Exited code w.

(** A method called on a nil interface value. *)
Definition nilDereference {A} : M A := λ w, Panicked w.

Fixpoint forRange {A} (l : list A) (body : A → M unit) : M unit :=
  match l with
  | [] => mret tt
  | x :: l' => body x ;; forRange l' body
  end.

(** ** Writers *)

Inductive Writer :=
| os_Stdout
| os_Stderr
| ErrorBuffer_w
| File (name : string)
| io_MultiWriter (a b : Writer).

Definition appendFile (name p : string) (fs : gmap string string) : gmap string string :=
  <[name := default "" (fs !! name) +:+ p]> fs.

Fixpoint writeBytes (wr : Writer) (p : string) (w : World) : World :=
  match wr with
  | os_Stdout =>
      {| Debugging := Debugging w; ErrorBuffer := ErrorBuffer w;
         Stdout := Stdout w +:+ p; Stderr := Stderr w; Files := Files w |}
  | os_Stderr =>
      {| Debugging := Debugging w; ErrorBuffer := ErrorBuffer w;
         Stdout := Stdout w; Stderr := Stderr w +:+ p; Files := Files w |}
  | ErrorBuffer_w =>
      {| Debugging := Debugging w; ErrorBuffer := ErrorBuffer w +:+ p;
         Stdout := Stdout w; Stderr := Stderr w; Files := Files w |}
  | File name =>
      {| Debugging := Debugging w; ErrorBuffer := ErrorBuffer w;
         Stdout := Stdout w; Stderr := Stderr w;
         Files := appendFile name p (Files w) |}
  | io_MultiWriter a b => writeBytes b p (writeBytes a p w)
  end.

(** [w.Write(p)]. *)
Definition Write (wr : Writer) (p : string) : M unit :=
  λ w, Returned tt (writeBytes wr p w).

(** [fmt.Fprintln(w, s)] and, for [s = ""], [fmt.Fprintln(w)]: one write of
    the operand and a newline. *)
Definition Fprintln (wr : Writer) (s : string) : M unit := Write wr (s +:+ LF).

Definition ErrorWriter : Writer := io_MultiWriter os_Stderr ErrorBuffer_w.
Definition OutputWriter : Writer := io_MultiWriter os_Stdout ErrorBuffer_w.

(** The file that [os.Create] opens: created, or truncated if it exists. *)
Definition createFile (name : string) : M unit :=
  λ w, Returned tt
    {| Debugging := Debugging w; ErrorBuffer := ErrorBuffer w;
       Stdout := Stdout w; Stderr := Stderr w;
       Files := <[name := ""]> (Files w) |}.

(** ** commands.go *)

Section Commands.

Variable E : Env.

Definition Error (format : string) (args : list value) : M unit :=
  let line := if (0 <? length args)%nat then Sprintf E format args else format in
  Fprintln ErrorWriter line.

Definition Print (format : string) (args : list value) : M unit :=
  let line := Sprintf E format args in
  Fprintln OutputWriter line.

Definition Exit (format : string) (args : list value) : M unit :=
  Error format args ;;
  os_Exit 2.

(** [err.Error()] for a possibly nil [err]. *)
Definition callError (err : option error) : M string :=
  match err with
  | Some e => mret (error_Error e)
  | None => nilDereference
  end.

Definition logPanicToWriter (w : Writer) (loggedError : error) : M unit :=
  let gitV :=
    match git_Config_Version E with
    | (_, Some err) => "Error getting git version: " +:+ error_Error err
    | (v, None) => v
    end in
  Fprintln w (VersionDesc E) ;;
  Fprintln w gitV ;;
  Fprintln w "" ;;
  Write w ("$ " +:+ filepath_Base E (os_Args0 E)) ;;
  (if (0 <? length (os_Args E))%nat
   then Write w (" " +:+ strings_Join (os_ArgsRest E) " ")
   else mret tt) ;;
  Fprintln w "" ;;
  transcript ← gets ErrorBuffer ;
  Write w transcript ;;
  Fprintln w "" ;;
  Fprintln w (error_Error loggedError) ;;
  match asErrorWithStack loggedError with
  | Some err =>
      Fprintln w (InnerError err) ;;
      forRange (rangeMap E (Context err))
               (λ kv, Write w (kv.1 +:+ "=" +:+ kv.2 +:+ LF)) ;;
      Write w (Stack err)
  | None => Write w (errutil_Stack E)
  end ;;
  Fprintln w (LF +:+ "ENV:") ;;
  forRange (Environ E) (λ env, Fprintln w env).

Definition logPanic (loggedError : error) : M string :=
  let name := time_Now_Format E in
  let full := filepath_Join E (LocalLogDir E) (name +:+ ".log") in
  (* the branches fix the returned path, the writer and the deferred call *)
  '(full, fmtWriter, deferred) ←
    match os_MkdirAll E (LocalLogDir E) with
    | Some err =>
        Write os_Stderr ("Unable to log panic to " +:+ LocalLogDir E +:+ ": "
                         +:+ error_Error err +:+ LF +:+ LF) ;;
        mret ("", os_Stderr, mret tt)
    | None =>
        match os_Create E full with
        | Some err =>
            let filename := full in
            mret ("", os_Stderr,
                  Write os_Stderr ("Unable to log panic to " +:+ filename
                                   +:+ LF +:+ LF) ;;
                  logPanicToWriter os_Stderr err)
        | None =>
            createFile full ;;
            mret (full, File full, mret tt (* file.Close() *))
        end
    end ;
  logPanicToWriter fmtWriter loggedError ;;
  (deferred : M unit) ;;
  mret full.

Definition handlePanic (err : option error) : M string :=
  match err with
  | None => mret ""
  | Some e => logPanic e
  end.

Definition LoggedError (err : option error) (format : string) (args : list value) : M unit :=
  Error format args ;;
  file ← handlePanic err ;
  if (0 <? String.length file)%nat
  then Write os_Stderr (LF +:+ "Errors logged to " +:+ file +:+ LF
                        +:+ "Use `git lfs logs last` to view the log." +:+ LF)
  else mret tt.

Definition Panic (err : option error) (format : string) (args : list value) : M unit :=
  LoggedError err format args ;;
  os_Exit 2.

Definition ExitWithError (err : option error) : M unit :=
  debugging ← gets Debugging ;
  if debugging || IsFatalError E err
  then
    msg ← callError err ;
    Panic err msg []
  else
    match GetInnerError E err with
    | Some inner => Error (error_Error inner) []
    | None => mret tt
    end ;;
    msg ← callError err ;
    Exit msg [].

End Commands.

(** ** The text of a log record *)

Section Record.

Variable E : Env.

Definition gitVersionLine : string :=
  match git_Config_Version E with
  | (_, Some err) => "Error getting git version: " +:+ error_Error err
  | (v, None) => v
  end.

Definition commandLine : string :=
  "$ " +:+ filepath_Base E (os_Args0 E) +:+ " " +:+ strings_Join (os_ArgsRest E) " ".

Definition contextLine (kv : string * string) : string :=
  kv.1 +:+ "=" +:+ kv.2 +:+ LF.

Definition contextLines (ctx : gmap string string) : string :=
  concat_bytes (map contextLine (rangeMap E ctx)).

(** What follows the message of the error: the capability's inner error,
    context and stack, or else the stack captured by [errutil.Stack()]. *)
Definition errorDetail (e : error) : string :=
  match asErrorWithStack e with
  | Some err => InnerError err +:+ LF +:+ contextLines (Context err) +:+ Stack err
  | None => errutil_Stack E
  end.

Definition environLines : string :=
  concat_bytes (map (λ env, env +:+ LF) (Environ E)).

(** The record for [e] when the transcript buffer holds [transcript]. *)
Definition logRecord (transcript : string) (e : error) : string :=
  VersionDesc E +:+ LF +:+
  gitVersionLine +:+ LF +:+
  LF +:+
  commandLine +:+ LF +:+
  transcript +:+
  LF +:+
  error_Error e +:+ LF +:+
  errorDetail e +:+
  LF +:+ "ENV:" +:+ LF +:+
  environLines.

(** The record as the specification words it: a blank line on either side
    of the transcript. *)
Definition specRecord (transcript : string) (e : error) : string :=
  VersionDesc E +:+ LF +:+
  gitVersionLine +:+ LF +:+
  LF +:+
  commandLine +:+ LF +:+
  LF +:+
  transcript +:+
  LF +:+
  error_Error e +:+ LF +:+
  errorDetail e +:+
  LF +:+ "ENV:" +:+ LF +:+
  environLines.

End Record.

(** ** Writers that do not feed the transcript *)

(** [os.Stderr] and an opened file, the two writers [logPanic] hands to
    [logPanicToWriter]: consecutive writes append, and the transcript
    buffer is left alone. *)
Class DirectWriter (wr : Writer) := {
  writeBytes_append : ∀ p q w,
    writeBytes wr q (writeBytes wr p w) = writeBytes wr (p +:+ q) w;
  writeBytes_ErrorBuffer : ∀ p w,
    ErrorBuffer (writeBytes wr p w) = ErrorBuffer w
}.

Definition setFile (name content : string) (w : World) : World :=
  {| Debugging := Debugging w; ErrorBuffer := ErrorBuffer w;
     Stdout := Stdout w; Stderr := Stderr w;
     Files := <[name := content]> (Files w) |}.

(** ** The worlds the routines leave *)

Section Worlds.

Variable E : Env.

(** The path [logPanic] computes for the log file. *)
Definition logPath : string :=
  filepath_Join E (LocalLogDir E) (time_Now_Format E +:+ ".log").

Definition mkdirWarning (err : error) : string :=
  "Unable to log panic to " +:+ LocalLogDir E +:+ ": " +:+ error_Error err
  +:+ LF +:+ LF.

Definition createWarning : string :=
  "Unable to log panic to " +:+ logPath +:+ LF +:+ LF.

Definition reportLines (file : string) : string :=
  LF +:+ "Errors logged to " +:+ file +:+ LF
  +:+ "Use `git lfs logs last` to view the log." +:+ LF.

(** The line [Error] hands to [ErrorWriter]. *)
Definition errorLine (format : string) (args : list value) : string :=
  match args with
  | [] => format
  | _ :: _ => Sprintf E format args
  end +:+ LF.

(** The world [LoggedError] leaves for a non-nil error, from the world
    [w1] that [Error] left. *)
Definition afterLogPanic (e : error) (w1 : World) : World :=
  match os_MkdirAll E (LocalLogDir E) with
  | Some derr =>
      writeBytes os_Stderr
        (mkdirWarning derr +:+ logRecord E (ErrorBuffer w1) e) w1
  | None =>
      match os_Create E logPath with
      | Some cerr =>
          writeBytes os_Stderr
            (logRecord E (ErrorBuffer w1) e +:+ createWarning
             +:+ logRecord E (ErrorBuffer w1) cerr) w1
      | None =>
          writeBytes os_Stderr (reportLines logPath)
            (setFile logPath (logRecord E (ErrorBuffer w1) e) w1)
      end
  end.

Definition afterLoggedError (err : option error) (format : string)
    (args : list value) (w : World) : World :=
  let w1 := writeBytes ErrorWriter (errorLine format args) w in
  match err with
  | None => w1
  | Some e => afterLogPanic e w1
  end.

(** The message lines of [ExitWithError] that precede the line of the
    error itself: the inner error's, on the path that does not log. *)
Definition innerLines (e : error) (w : World) : string :=
  if Debugging w || IsFatalError E (Some e) then ""
  else match GetInnerError E (Some e) with
       | Some inner => error_Error inner +:+ LF
       | None => ""
       end.

End Worlds.

(** ** Sequences of [Print] and [Error] calls *)

Inductive call :=
| CallPrint (format : string) (args : list value)
| CallError (format : string) (args : list value).

Definition doCall (E : Env) (c : call) : M unit :=
  match c with
  | CallPrint format args => Print E format args
  | CallError format args => Error E format args
  end.

Definition isPrint (c : call) : bool :=
  match c with
  | CallPrint _ _ => true
  | CallError _ _ => false
  end.

(** The line a call writes to its logical stream: its message and a
    newline. *)
Definition lineWritten (E : Env) (c : call) : string :=
  match c with
  | CallPrint format args => Sprintf E format args +:+ LF
  | CallError format args => errorLine E format args
  end.

(** ** Counting log artifacts *)

(** The records in a text, counted by the [ENV:] line that each record
    carries once. *)
Definition recordCount (s : string) : nat :=
  length (List.filter (λ l, String.eqb l "ENV:") (lines s)).

(** The log files of a world and the records on its error stream. *)
Definition logArtifacts (w : World) : nat :=
  size (Files w) + recordCount (Stderr w).

(** ** An environment for examples *)

Definition typeName (v : value) : string :=
  match v with
  | VString _ => "string"
  | VInt _ => "int"
  | VError _ => "*errors.errorString"
  end.

Definition showOperand (v : value) : string :=
  match v with
  | VString s => s
  | VInt i => pretty i
  | VError e => error_Error e
  end.

Fixpoint extraOperands (args : list value) : string :=
  match args with
  | [] => ""
  | [v] => typeName v +:+ "=" +:+ showOperand v
  | v :: rest => typeName v +:+ "=" +:+ showOperand v +:+ ", " +:+ extraOperands rest
  end.

Definition reportExtra (args : list value) : string :=
  match args with
  | [] => ""
  | _ :: _ => "%!(EXTRA " +:+ extraOperands args +:+ ")"
  end.

(** Whether fmt prints an operand under a verb: [%v] prints any operand,
    [%s] a string or an error, [%d] an integer. *)
Definition verbFits (c : ascii) (v : value) : bool :=
  match v with
  | VString _ | VError _ => Ascii.eqb c "v" || Ascii.eqb c "s"
  | VInt _ => Ascii.eqb c "v" || Ascii.eqb c "d"
  end.

Definition formatOperand (c : ascii) (v : value) : string :=
  if verbFits c v then showOperand v
  else "%!" +:+ String c ("(" +:+ typeName v +:+ "=" +:+ showOperand v +:+ ")").

(** [fmt.Sprintf] on the formats whose directives are [%s], [%v], [%d] and
    [%%], without flags, width or precision, on strings, integers and
    errors, with the reports fmt makes of a missing verb, a missing
    operand, a string or integer under the wrong verb, and operands left
    over. *)
Fixpoint exampleSprintf (format : string) (args : list value) : string :=
  match format with
  | "" => reportExtra args
  | String "%" "" => "%!(NOVERB)" +:+ reportExtra args
  | String "%" (String c rest) =>
      if Ascii.eqb c "%" then String "%" (exampleSprintf rest args)
      else match args with
           | [] => "%!" +:+ String c "(MISSING)" +:+ exampleSprintf rest []
           | v :: args' => formatOperand c v +:+ exampleSprintf rest args'
           end
  | String c rest => String c (exampleSprintf rest args)
  end.

Fixpoint stripTrailingSlashes (s : string) : string :=
  match s with
  | "" => ""
  | String c s' =>
      match stripTrailingSlashes s' with
      | "" => if Ascii.eqb c "/" then "" else String c ""
      | t => String c t
      end
  end.

Fixpoint afterLastSlash (s acc : string) : string :=
  match s with
  | "" => acc
  | String c s' =>
      if Ascii.eqb c "/" then afterLastSlash s' ""
      else afterLastSlash s' (acc +:+ String c "")
  end.

(** [filepath.Base] where the separator is [/]. *)
Definition exampleBase (path : string) : string :=
  match path with
  | "" => "."
  | _ =>
      match afterLastSlash (stripTrailingSlashes path) "" with
      | "" => "/"
      | b => b
      end
  end.

(** [filepath.Join] of a directory and a file name that are already
    clean. *)
Definition exampleJoin (dir name : string) : string :=
  match dir with
  | "" => name
  | _ => dir +:+ "/" +:+ name
  end.

Lemma exampleJoin_nonempty (dir name : string) :
  name ≠ "" → exampleJoin dir name ≠ "".
Proof. destruct dir; [trivial | discriminate]. Qed.

Lemma map_to_list_perm (m : gmap string string) :
  map_to_list m ≡ₚ map_to_list m.
Proof. reflexivity. Qed.

(** The scenario of the specification: version [1.0.0], [git version
    2.40], invoked as [git-lfs push origin]; the classification of errors
    and the answers of the file system are left open. *)
Definition exampleEnv (fatal : bool) (inner : option error)
    (mkdir create : option error) : Env :=
  {| Sprintf := exampleSprintf;
     IsFatalError := λ _, fatal;
     GetInnerError := λ _, inner;
     errutil_Stack := "goroutine 1 [running]:" +:+ LF;
     VersionDesc := "1.0.0";
     LocalLogDir := ".git/lfs/objects/logs";
     git_Config_Version := ("git version 2.40", None);
     Environ := ["HOME=/root"; "GIT_DIR=.git"];
     os_Args0 := "/usr/bin/git-lfs";
     os_ArgsRest := ["push"; "origin"];
     os_MkdirAll := λ _, mkdir;
     os_Create := λ _, create;
     time_Now_Format := "20160102T150405.000000001";
     filepath_Join := exampleJoin;
     filepath_Base := exampleBase;
     filepath_Join_nonempty := exampleJoin_nonempty;
     rangeMap := map_to_list;
     rangeMap_perm := map_to_list_perm |}.

Definition plainError (msg : string) : error :=
  {| error_Error := msg; asErrorWithStack := None |}.

Definition startWorld : World :=
  {| Debugging := false; ErrorBuffer := ""; Stdout := ""; Stderr := "";
     Files := ∅ |}.

(** The world after [Print("uploading file")]. *)
Definition uploadingWorld : World :=
  {| Debugging := false; ErrorBuffer := "uploading file" +:+ LF;
     Stdout := "uploading file" +:+ LF; Stderr := ""; Files := ∅ |}.

Definition debuggingWorld : World :=
  {| Debugging := true; ErrorBuffer := ""; Stdout := ""; Stderr := "";
     Files := ∅ |}.

Definition fatalEnv : Env := exampleEnv true None None None.

Definition plainEnv : Env := exampleEnv false None None None.

Definition innerEnv : Env :=
  exampleEnv false (Some (plainError "connection refused")) None None.

Definition mkdirFailsEnv : Env :=
  exampleEnv true None
    (Some (plainError "mkdir .git/lfs/objects/logs: not a directory")) None.

Definition createFailsEnv : Env :=
  exampleEnv true None None
    (Some (plainError "open 20160102T150405.000000001.log: permission denied")).


(** ** The rest of commands.go: [Debug], the guards and the help texts *)

(** What these routines take from their surroundings, beside [Env]. *)
Record Host := {
  env : Env;
  (* the date and time that the standard logger puts before a message *)
  log_header : string;
  (* os.Stdin.Stat(): the mode bits of the FileInfo, and the error *)
  os_Stdin_Stat : Z * option error;
  (* lfs.InRepo() *)
  lfs_InRepo : bool;
  (* the package variable ManPages, filled when the program starts *)
  ManPages : gmap string string;
  (* strings.TrimSpace, and the text the verb %q prints for a string *)
  strings_TrimSpace : string → string;
  strconv_Quote : string → string
}.

(** [os.ModeCharDevice], bit 21 of a [FileMode]. *)
Definition os_ModeCharDevice : Z := Z.shiftl 1 21.

(** [len(s) > 0 && s[len(s)-1] == '\n']. *)
Fixpoint endsWithLF (s : string) : bool :=
  match s with
  | "" => false
  | String c "" => Ascii.eqb c "010"
  | String _ s' => endsWithLF s'
  end.

Fixpoint hasLF (s : string) : bool :=
  match s with
  | "" => false
  | String c s' => Ascii.eqb c "010" || hasLF s'
  end.

(** A text made of whole lines: empty, or ending in a newline. *)
Definition completeLines (s : string) : bool :=
  match s with
  | "" => true
  | _ => endsWithLF s
  end.

Section Rest.

Variable H : Host.

(** [log.Printf]: the standard logger, whose output [init] sets to
    [ErrorWriter], writes the header, the message and, unless the message
    ends in one, a newline, in one write. *)
Definition log_Printf (format : string) (args : list value) : M unit :=
  let s := Sprintf (env H) format args in
  Write ErrorWriter
    (log_header H +:+ s
     +:+ (if (String.length s =? 0)%nat || negb (endsWithLF s) then LF else "")).

Definition Debug (format : string) (args : list value) : M unit :=
  debugging ← gets Debugging ;
  if negb debugging then mret tt
  else log_Printf format args.

Definition requireStdin (msg : string) : M unit :=
  let '(mode, err) := os_Stdin_Stat H in
  let out :=
    match err with
    | Some e =>
        "Cannot read from STDIN. " +:+ msg +:+ " (" +:+ error_Error e +:+ ")"
    | None =>
        if negb (Z.land mode os_ModeCharDevice =? 0)%Z
        then "Cannot read from STDIN. " +:+ msg
        else ""
    end in
  if (0 <? String.length out)%nat
  then Error (env H) out [] ;; os_Exit 1
  else mret tt.

Definition requireInRepo : M unit :=
  if negb (lfs_InRepo H)
  then Print (env H) "Not in a git repository." [] ;; os_Exit 128
  else mret tt.

Definition printHelp (commandName : string) : M unit :=
  match ManPages H !! commandName with
  | Some txt => Write os_Stderr (strings_TrimSpace H txt +:+ LF)
  | None =>
      Write os_Stderr ("Sorry, no usage text found for "
                       +:+ strconv_Quote H commandName +:+ LF)
  end.

(** [help(cmd, args)]; the command is not looked at. *)
Definition help (args : list string) : M unit :=
  if (length args =? 0)%nat then printHelp "git-lfs"
  else printHelp (hd "" args).

(** [usage(cmd)], for a command named [cmd.Name()]. *)
Definition usage (name : string) : M (option error) :=
  printHelp name ;;
  mret None.

End Rest.

(** The line [Debug] has the logger write. *)
Definition debugLine (H : Host) (format : string) (args : list value) : string :=
  log_header H +:+ Sprintf (env H) format args
  +:+ (if endsWithLF (Sprintf (env H) format args) then "" else LF).

(** What [printHelp] writes for a topic. *)
Definition helpPage (H : Host) (topic : string) : string :=
  match ManPages H !! topic with
  | Some txt => strings_TrimSpace H txt +:+ LF
  | None => "Sorry, no usage text found for " +:+ strconv_Quote H topic +:+ LF
  end.

(** A call of one of the routines. *)
Inductive action :=
| DoPrint (format : string) (args : list value)
| DoError (format : string) (args : list value)
| DoDebug (format : string) (args : list value)
| DoExit (format : string) (args : list value)
| DoLoggedError (err : option error) (format : string) (args : list value)
| DoPanic (err : option error) (format : string) (args : list value)
| DoExitWithError (err : option error)
| DoRequireStdin (msg : string)
| DoRequireInRepo
| DoHelp (args : list string).

Definition doAction (H : Host) (a : action) : M unit :=
  match a with
  | DoPrint format args => Print (env H) format args
  | DoError format args => Error (env H) format args
  | DoDebug format args => Debug H format args
  | DoExit format args => Exit (env H) format args
  | DoLoggedError err format args => LoggedError (env H) err format args
  | DoPanic err format args => Panic (env H) err format args
  | DoExitWithError err => ExitWithError (env H) err
  | DoRequireStdin msg => requireStdin H msg
  | DoRequireInRepo => requireInRepo H
  | DoHelp args => help H args
  end.

(** [strings.TrimSpace] on texts whose white space is blanks, tabs,
    newlines and carriage returns. *)
Definition isBlank (c : ascii) : bool :=
  Ascii.eqb c " " || Ascii.eqb c "009" || Ascii.eqb c "010" || Ascii.eqb c "013".

Fixpoint trimLeft (s : string) : string :=
  match s with
  | "" => ""
  | String c s' => if isBlank c then trimLeft s' else s
  end.

Fixpoint trimRight (s : string) : string :=
  match s with
  | "" => ""
  | String c s' =>
      match trimRight s' with
      | "" => if isBlank c then "" else String c ""
      | t => String c t
      end
  end.

Definition exampleTrimSpace (s : string) : string := trimRight (trimLeft s).

(** The verb [%q] on a text of plain letters: the text between double
    quotes. *)
Definition exampleQuote (s : string) : string :=
  String "034"%char (s +:+ String "034"%char "").

Definition exampleHost (E : Env) (stat : Z * option error) (inRepo : bool) : Host :=
  {| env := E;
     log_header := "2016/01/02 15:04:05 ";
     os_Stdin_Stat := stat;
     lfs_InRepo := inRepo;
     ManPages := {["git-lfs" := (LF +:+ "git-lfs(1)" +:+ LF +:+ LF)]};
     strings_TrimSpace := exampleTrimSpace;
     strconv_Quote := exampleQuote |}.

(** An error that carries a context of two entries. *)
Definition contextError : error :=
  {| error_Error := "transfer failed";
     asErrorWithStack :=
       Some {| Context := {["retry" := "3"; "oid" := "abc123"]};
               InnerError := "connection reset";
               Stack := "goroutine 7 [running]:" +:+ LF |} |}.

(** * Proofs *)

(** ** Strings *)

Lemma append_nil_l (a : string) : "" +:+ a = a.
Proof. reflexivity. Qed.

Lemma append_cons (x : ascii) (a b : string) :
  String x a +:+ b = String x (a +:+ b).
Proof. reflexivity. Qed.

Lemma append_assoc (a b c : string) : (a +:+ b) +:+ c = a +:+ (b +:+ c).
Proof.
  induction a as [|x a IH]; [reflexivity|].
  rewrite !append_cons. now rewrite IH.
Qed.

Lemma append_nil_r (a : string) : a +:+ "" = a.
Proof.
  induction a as [|x a IH]; [reflexivity|].
  rewrite append_cons. now rewrite IH.
Qed.

Lemma concat_bytes_app (l1 l2 : list string) :
  concat_bytes (l1 ++ l2) = concat_bytes l1 +:+ concat_bytes l2.
Proof.
  induction l1 as [|s l1 IH]; simpl; [reflexivity|].
  now rewrite IH, append_assoc.
Qed.


(** ** Writers *)

#[global] Instance os_Stderr_direct : DirectWriter os_Stderr.
Proof.
  split; intros; simpl; [|reflexivity].
  now rewrite append_assoc.
Qed.

Lemma appendFile_appendFile (name p q : string) (fs : gmap string string) :
  appendFile name q (appendFile name p fs) = appendFile name (p +:+ q) fs.
Proof.
  unfold appendFile.
  rewrite lookup_insert_eq, insert_insert_eq. simpl.
  now rewrite append_assoc.
Qed.

#[global] Instance File_direct (name : string) : DirectWriter (File name).
Proof.
  split; intros; simpl; [|reflexivity].
  now rewrite appendFile_appendFile.
Qed.

Arguments writeBytes : simpl never.

Section LogPanicToWriter.

Variable E : Env.
Variable wr : Writer.
Context `{!DirectWriter wr}.

Lemma forRange_Write {A} (f : A → string) (l : list A) (p : string) (w : World) :
  forRange l (λ x, Write wr (f x)) (writeBytes wr p w)
  = Returned tt (writeBytes wr (p +:+ concat_bytes (map f l)) w).
Proof.
  revert p. induction l as [|x l IH]; intros p; simpl.
  - now rewrite append_nil_r.
  - unfold mbind, M_bind, Write at 1.
    rewrite writeBytes_append, IH. now rewrite append_assoc.
Qed.

(** [logPanicToWriter] amounts to one write of the record. *)
Lemma logPanicToWriter_direct (e : error) (w : World) :
  logPanicToWriter E wr e w
  = Returned tt (writeBytes wr (logRecord E (ErrorBuffer w) e) w).
Proof.
  unfold logPanicToWriter, logRecord, Fprintln, gets.
  unfold mbind, M_bind, mret, M_ret, Write at 1 2 3 4 5 6 7 8 9.
  simpl.
  rewrite !writeBytes_append, writeBytes_ErrorBuffer.
  unfold errorDetail, contextLines, environLines, gitVersionLine, commandLine.
  destruct (asErrorWithStack e) as [err|].
  - unfold Write at 1. rewrite !writeBytes_append.
    rewrite (forRange_Write contextLine).
    unfold Write at 1 2. rewrite !writeBytes_append.
    rewrite (forRange_Write (λ env, env +:+ LF)).
    now rewrite !append_assoc.
  - unfold Write at 1 2. rewrite !writeBytes_append.
    rewrite (forRange_Write (λ env, env +:+ LF)).
    now rewrite !append_assoc.
Qed.

End LogPanicToWriter.

(** ** [logPanic], [LoggedError], [Panic] and [ExitWithError], case by case *)

Section Cases.

Variable E : Env.

Lemma logPath_nonempty : (0 <? String.length (logPath E))%nat = true.
Proof.
  assert (H : (logPath E) ≠ "").
  { apply filepath_Join_nonempty.
    destruct (time_Now_Format E); discriminate. }
  destruct (logPath E); [congruence | reflexivity].
Qed.

Lemma writeBytes_File_setFile (name r : string) (w : World) :
  writeBytes (File name) r (setFile name "" w) = setFile name r w.
Proof.
  unfold setFile, writeBytes, appendFile. simpl. f_equal.
  now rewrite lookup_insert_eq, insert_insert_eq.
Qed.

Lemma logPanic_cases (e : error) (w : World) :
  logPanic E e w =
  match os_MkdirAll E (LocalLogDir E) with
  | Some derr =>
      Returned ""
        (writeBytes os_Stderr
           (mkdirWarning E derr +:+ logRecord E (ErrorBuffer w) e) w)
  | None =>
      match os_Create E (logPath E) with
      | Some cerr =>
          Returned ""
            (writeBytes os_Stderr
               (logRecord E (ErrorBuffer w) e +:+ (createWarning E)
                +:+ logRecord E (ErrorBuffer w) cerr) w)
      | None =>
          Returned (logPath E) (setFile (logPath E) (logRecord E (ErrorBuffer w) e) w)
      end
  end.
Proof.
  unfold logPanic. fold (logPath E).
  destruct (os_MkdirAll E (LocalLogDir E)) as [derr|].
  - unfold mbind, M_bind, mret, M_ret, Write at 1. simpl.
    rewrite logPanicToWriter_direct by typeclasses eauto.
    now rewrite writeBytes_append.
  - destruct (os_Create E (logPath E)) as [cerr|].
    + unfold mbind, M_bind, mret, M_ret. simpl.
      rewrite logPanicToWriter_direct by typeclasses eauto.
      unfold Write. rewrite writeBytes_append.
      rewrite logPanicToWriter_direct by typeclasses eauto.
      rewrite writeBytes_ErrorBuffer, writeBytes_append.
      unfold createWarning. now rewrite !append_assoc.
    + unfold mbind, M_bind, mret, M_ret, createFile. simpl.
      rewrite logPanicToWriter_direct by typeclasses eauto.
      fold (setFile (logPath E) "" w).
      now rewrite writeBytes_File_setFile.
Qed.

Lemma Error_eq (format : string) (args : list value) (w : World) :
  Error E format args w
  = Returned tt (writeBytes ErrorWriter (errorLine E format args) w).
Proof. unfold Error, errorLine, Fprintln, Write. now destruct args. Qed.

Lemma ErrorBuffer_after_Error (p : string) (w : World) :
  ErrorBuffer (writeBytes ErrorWriter p w) = ErrorBuffer w +:+ p.
Proof. reflexivity. Qed.

Lemma LoggedError_eq (err : option error) (format : string)
    (args : list value) (w : World) :
  LoggedError E err format args w
  = Returned tt (afterLoggedError E err format args w).
Proof.
  unfold LoggedError, afterLoggedError, afterLogPanic.
  unfold mbind, M_bind at 1. rewrite Error_eq.
  destruct err as [e|]; simpl.
  - unfold mbind, M_bind. rewrite logPanic_cases.
    destruct (os_MkdirAll E (LocalLogDir E)) as [derr|]; [reflexivity|].
    destruct (os_Create E (logPath E)) as [cerr|]; [reflexivity|].
    now rewrite logPath_nonempty.
  - reflexivity.
Qed.

Lemma Panic_eq (err : option error) (format : string)
    (args : list value) (w : World) :
  Panic E err format args w = Exited 2 (afterLoggedError E err format args w).
Proof. unfold Panic, mbind, M_bind. now rewrite LoggedError_eq. Qed.

Lemma Exit_eq (format : string) (args : list value) (w : World) :
  Exit E format args w
  = Exited 2 (writeBytes ErrorWriter (errorLine E format args) w).
Proof. unfold Exit, mbind, M_bind. now rewrite Error_eq. Qed.

Lemma ExitWithError_eq (e : error) (w : World) :
  ExitWithError E (Some e) w =
  if Debugging w || IsFatalError E (Some e)
  then Exited 2 (afterLoggedError E (Some e) (error_Error e) [] w)
  else
    Exited 2
      (writeBytes ErrorWriter (error_Error e +:+ LF)
         match GetInnerError E (Some e) with
         | Some inner => writeBytes ErrorWriter (error_Error inner +:+ LF) w
         | None => w
         end).
Proof.
  unfold ExitWithError, gets, callError.
  unfold mbind, M_bind at 1.
  destruct (Debugging w || IsFatalError E (Some e)).
  - unfold mbind, M_bind, mret, M_ret. now rewrite Panic_eq.
  - unfold mbind, M_bind, mret, M_ret.
    destruct (GetInnerError E (Some e)) as [inner|].
    + rewrite Error_eq. now rewrite Exit_eq.
    + now rewrite Exit_eq.
Qed.

End Cases.

(** ** The transcript buffer *)

Section Transcript.

Variable E : Env.

Lemma doCall_eq (c : call) (w : World) :
  doCall E c w
  = Returned tt
      (writeBytes (if isPrint c then OutputWriter else ErrorWriter)
                  (lineWritten E c) w).
Proof. destruct c; simpl; [reflexivity | apply Error_eq]. Qed.

(** C1. Whatever the sequence of [Print] and [Error] calls, it runs to the
    end, and the transcript buffer then holds what it held before followed
    by the lines of all the calls, in call order: the exact concatenation
    of each message and its newline.  The real streams received the same
    lines, those of [Print] on standard output and those of [Error] on
    standard error. *)
Theorem transcript_is_concatenation_of_lines (calls : list call) (w : World) :
  ∃ w', forRange calls (doCall E) w = Returned tt w'
    ∧ ErrorBuffer w' = ErrorBuffer w +:+ concat_bytes (map (lineWritten E) calls)
    ∧ Stdout w' =
        Stdout w +:+ concat_bytes (map (lineWritten E) (List.filter isPrint calls))
    ∧ Stderr w' =
        Stderr w +:+ concat_bytes
          (map (lineWritten E) (List.filter (λ c, negb (isPrint c)) calls)).
Proof.
  revert w. induction calls as [|c calls IH]; intros w.
  - exists w. simpl. now rewrite !append_nil_r.
  - simpl forRange. unfold mbind, M_bind. rewrite doCall_eq.
    destruct (IH (writeBytes (if isPrint c then OutputWriter else ErrorWriter)
                             (lineWritten E c) w))
      as (w' & Hrun & Hbuf & Hout & Herr).
    exists w'. split; [exact Hrun|].
    rewrite Hbuf, Hout, Herr. simpl.
    destruct c; simpl; unfold writeBytes; simpl;
      now rewrite ?append_assoc.
Qed.

End Transcript.

(** ** Messages *)

Section Messages.

Variable E : Env.

(** Whatever [LoggedError] goes on to log, the message line comes first on
    the error stream and is all that the transcript gains. *)
Lemma afterLoggedError_streams (err : option error) (format : string)
    (args : list value) (w : World) :
  ∃ rest,
    Stderr (afterLoggedError E err format args w)
    = Stderr w +:+ errorLine E format args +:+ rest
    ∧ ErrorBuffer (afterLoggedError E err format args w)
      = ErrorBuffer w +:+ errorLine E format args.
Proof.
  unfold afterLoggedError, afterLogPanic.
  destruct err as [e|].
  - destruct (os_MkdirAll E (LocalLogDir E)) as [derr|];
      [|destruct (os_Create E (logPath E)) as [cerr|]];
      eexists; (split; [|reflexivity]);
      unfold writeBytes; simpl; now rewrite append_assoc.
  - exists "". split; [|reflexivity].
    unfold writeBytes; simpl. now rewrite append_nil_r.
Qed.

(** C10. Called with a format and no operands, [Error] writes the format
    itself and a newline, whatever [fmt.Sprintf] would make of it; so does
    [Exit], and so do [LoggedError] and [Panic] for their message.
    [ExitWithError] passes the text of the error (and of its inner error)
    as such a format, so the text reaches the error stream and the
    transcript as it is. *)
Theorem Error_without_operands_is_verbatim (format : string) (w : World) :
  Error E format [] w = Returned tt (writeBytes ErrorWriter (format +:+ LF) w)
  ∧ Stderr (writeBytes ErrorWriter (format +:+ LF) w) = Stderr w +:+ format +:+ LF
  ∧ ErrorBuffer (writeBytes ErrorWriter (format +:+ LF) w)
    = ErrorBuffer w +:+ format +:+ LF
  ∧ Exit E format [] w = Exited 2 (writeBytes ErrorWriter (format +:+ LF) w)
  ∧ (∀ err, ∃ rest,
       Stderr (worldOf (LoggedError E err format [] w))
       = Stderr w +:+ format +:+ LF +:+ rest
       ∧ ErrorBuffer (worldOf (LoggedError E err format [] w))
         = ErrorBuffer w +:+ format +:+ LF)
  ∧ (∀ err, ∃ rest,
       Stderr (worldOf (Panic E err format [] w))
       = Stderr w +:+ format +:+ LF +:+ rest
       ∧ ErrorBuffer (worldOf (Panic E err format [] w))
         = ErrorBuffer w +:+ format +:+ LF)
  ∧ (∀ e, ∃ rest,
       Stderr (worldOf (ExitWithError E (Some e) w))
       = Stderr w +:+ innerLines E e w +:+ error_Error e +:+ LF +:+ rest
       ∧ ErrorBuffer (worldOf (ExitWithError E (Some e) w))
         = ErrorBuffer w +:+ innerLines E e w +:+ error_Error e +:+ LF).
Proof.
  split; [apply Error_eq|].
  split; [reflexivity|]. split; [reflexivity|].
  split; [apply Exit_eq|].
  split; [|split].
  - intros err. rewrite LoggedError_eq. simpl.
    destruct (afterLoggedError_streams err format [] w) as (rest & H1 & H2).
    exists rest. rewrite H1, H2. unfold errorLine.
    now rewrite ?append_assoc.
  - intros err. rewrite Panic_eq. simpl.
    destruct (afterLoggedError_streams err format [] w) as (rest & H1 & H2).
    exists rest. rewrite H1, H2. unfold errorLine.
    now rewrite ?append_assoc.
  - intros e. rewrite ExitWithError_eq. unfold innerLines.
    destruct (Debugging w || IsFatalError E (Some e)).
    + cbn [worldOf].
      destruct (afterLoggedError_streams (Some e) (error_Error e) [] w)
        as (rest & H1 & H2).
      exists rest. rewrite H1, H2. unfold errorLine.
    now rewrite ?append_assoc.
    + exists "". cbn [worldOf].
      destruct (GetInnerError E (Some e)) as [inner|];
        unfold writeBytes; simpl;
        now rewrite ?append_assoc, ?append_nil_r.
Qed.

(** C8. [LoggedError] returns to its caller for every error, format and
    operands: it neither exits nor panics.  For a nil error all it does is
    write the message line through [ErrorWriter]. *)
Theorem LoggedError_returns :
  (∀ err format args w, ∃ w', LoggedError E err format args w = Returned tt w')
  ∧ (∀ format args w,
       LoggedError E None format args w
       = Returned tt (writeBytes ErrorWriter (errorLine E format args) w)).
Proof.
  split.
  - intros err format args w. eexists. apply LoggedError_eq.
  - intros format args w. now rewrite LoggedError_eq.
Qed.

End Messages.

(** [Error] leaves a lone [%] alone; [Print], which always formats, does
    not. *)
Example Error_percent :
  Error plainEnv "100%" [] startWorld
  = Returned tt (writeBytes ErrorWriter ("100%" +:+ LF) startWorld).
Proof. reflexivity. Qed.

Example Print_percent :
  Print plainEnv "100%" [] startWorld
  = Returned tt (writeBytes OutputWriter ("100%!(NOVERB)" +:+ LF) startWorld).
Proof. reflexivity. Qed.

(** ** [ExitWithError] on the path that does not log *)

Section Recoverable.

Variable E : Env.

(** C6. With the debug flag unset, for an error that is not fatal and has
    an inner error, [ExitWithError] prints the inner error's message on a
    line of the error stream, then the error's own message, and exits with
    status 2; no file is written. *)
Theorem ExitWithError_inner_error (e inner : error) (w : World) :
  Debugging w = false →
  IsFatalError E (Some e) = false →
  GetInnerError E (Some e) = Some inner →
  ∃ w', ExitWithError E (Some e) w = Exited 2 w'
    ∧ Stderr w' = Stderr w +:+ error_Error inner +:+ LF +:+ error_Error e +:+ LF
    ∧ ErrorBuffer w' =
        ErrorBuffer w +:+ error_Error inner +:+ LF +:+ error_Error e +:+ LF
    ∧ Stdout w' = Stdout w
    ∧ Files w' = Files w.
Proof.
  intros Hdebug Hfatal Hinner.
  rewrite ExitWithError_eq, Hdebug, Hfatal, Hinner. simpl.
  eexists. split; [reflexivity|].
  unfold writeBytes; simpl. now rewrite !append_assoc.
Qed.

(** C9, amended. With the debug flag unset, for an error that is not fatal
    and has no inner error, [ExitWithError] prints one line, the error's
    message, on the error stream and exits with status 2; no file is
    written. *)
Theorem ExitWithError_plain_error (e : error) (w : World) :
  Debugging w = false →
  IsFatalError E (Some e) = false →
  GetInnerError E (Some e) = None →
  ∃ w', ExitWithError E (Some e) w = Exited 2 w'
    ∧ Stderr w' = Stderr w +:+ error_Error e +:+ LF
    ∧ ErrorBuffer w' = ErrorBuffer w +:+ error_Error e +:+ LF
    ∧ Stdout w' = Stdout w
    ∧ Files w' = Files w.
Proof.
  intros Hdebug Hfatal Hinner.
  rewrite ExitWithError_eq, Hdebug, Hfatal, Hinner. simpl.
  eexists. split; [reflexivity|].
  unfold writeBytes; simpl. auto.
Qed.

End Recoverable.

Lemma ExitWithError_inner_error_witness :
  Debugging startWorld = false
  ∧ IsFatalError innerEnv (Some (plainError "push failed")) = false
  ∧ GetInnerError innerEnv (Some (plainError "push failed"))
    = Some (plainError "connection refused")
  ∧ ∃ w', ExitWithError innerEnv (Some (plainError "push failed")) startWorld
          = Exited 2 w'
      ∧ Stderr w' =
          Stderr startWorld +:+ "connection refused" +:+ LF +:+ "push failed" +:+ LF
      ∧ ErrorBuffer w' =
          ErrorBuffer startWorld +:+ "connection refused" +:+ LF
          +:+ "push failed" +:+ LF
      ∧ Stdout w' = Stdout startWorld
      ∧ Files w' = Files startWorld.
Proof.
  split; [reflexivity|]. split; [reflexivity|]. split; [reflexivity|].
  exact (ExitWithError_inner_error innerEnv (plainError "push failed")
           (plainError "connection refused") startWorld
           eq_refl eq_refl eq_refl).
Defined.

Lemma ExitWithError_plain_error_witness :
  Debugging startWorld = false
  ∧ IsFatalError plainEnv (Some (plainError "not found")) = false
  ∧ GetInnerError plainEnv (Some (plainError "not found")) = None
  ∧ ∃ w', ExitWithError plainEnv (Some (plainError "not found")) startWorld
          = Exited 2 w'
      ∧ Stderr w' = Stderr startWorld +:+ "not found" +:+ LF
      ∧ ErrorBuffer w' = ErrorBuffer startWorld +:+ "not found" +:+ LF
      ∧ Stdout w' = Stdout startWorld
      ∧ Files w' = Files startWorld.
Proof.
  split; [reflexivity|]. split; [reflexivity|]. split; [reflexivity|].
  exact (ExitWithError_plain_error plainEnv (plainError "not found") startWorld
           eq_refl eq_refl eq_refl).
Defined.

(** C9 as stated fails when the debug flag is set: the error is not fatal
    and has no inner error, yet [ExitWithError] writes a log file and
    prints more than the one message line. *)
Lemma ExitWithError_plain_error_debugging :
  IsFatalError plainEnv (Some (plainError "not found")) = false
  ∧ GetInnerError plainEnv (Some (plainError "not found")) = None
  ∧ ∃ w', ExitWithError plainEnv (Some (plainError "not found")) debuggingWorld
          = Exited 2 w'
      ∧ size (Files w') = 1
      ∧ Files w' ≠ Files debuggingWorld
      ∧ lines (Stderr w') =
          ["not found"; "";
           "Errors logged to .git/lfs/objects/logs/20160102T150405.000000001.log";
           "Use `git lfs logs last` to view the log."; ""].
Proof.
  split; [reflexivity|]. split; [reflexivity|].
  eexists. split; [vm_compute; reflexivity|].
  split; [vm_compute; reflexivity|].
  split; [|vm_compute; reflexivity].
  intros H. apply (f_equal size) in H. vm_compute in H. discriminate H.
Qed.

(** ** The panic log *)

Section PanicLog.

Variable E : Env.

(** C4. When [os.MkdirAll] fails on the log directory, [logPanic] returns
    the empty path and writes to the real error stream: a warning line
    naming the directory and the failure, a blank line, and then the whole
    record of the error ([logRecord]: version, git version, command line,
    transcript, message, stack or context, environment).  No file is
    written and the transcript is unchanged. *)
Theorem logPanic_mkdir_failure (e derr : error) (w : World) :
  os_MkdirAll E (LocalLogDir E) = Some derr →
  ∃ w', logPanic E e w = Returned "" w'
    ∧ Stderr w' =
        Stderr w
        +:+ "Unable to log panic to " +:+ LocalLogDir E +:+ ": "
        +:+ error_Error derr +:+ LF +:+ LF
        +:+ logRecord E (ErrorBuffer w) e
    ∧ Files w' = Files w
    ∧ ErrorBuffer w' = ErrorBuffer w
    ∧ Stdout w' = Stdout w.
Proof.
  intros Hmkdir. rewrite logPanic_cases, Hmkdir.
  eexists. split; [reflexivity|].
  unfold writeBytes, mkdirWarning; simpl. now rewrite !append_assoc.
Qed.


(** C7, amended. For a non-nil error, when the log directory and the log
    file can be created, [LoggedError] writes the message line through
    [ErrorWriter], writes the record of the error to the log file, and
    reports the path of the file on the error stream; whether the error is
    fatal plays no part. *)
Theorem LoggedError_writes_log_file (e : error) (format : string)
    (args : list value) (w : World) :
  os_MkdirAll E (LocalLogDir E) = None →
  os_Create E (logPath E) = None →
  ∃ w', LoggedError E (Some e) format args w = Returned tt w'
    ∧ ErrorBuffer w' = ErrorBuffer w +:+ errorLine E format args
    ∧ Files w' =
        <[logPath E := logRecord E (ErrorBuffer w +:+ errorLine E format args) e]>
          (Files w)
    ∧ Stderr w' =
        Stderr w +:+ errorLine E format args
        +:+ LF +:+ "Errors logged to " +:+ logPath E +:+ LF
        +:+ "Use `git lfs logs last` to view the log." +:+ LF
    ∧ Stdout w' = Stdout w.
Proof.
  intros Hmkdir Hcreate. rewrite LoggedError_eq.
  unfold afterLoggedError, afterLogPanic. rewrite Hmkdir, Hcreate.
  eexists. split; [reflexivity|].
  unfold writeBytes, setFile, reportLines; simpl.
  now rewrite !append_assoc.
Qed.

(** C2, amended. For a non-nil fatal error, [ExitWithError] prints the
    message line and exits with status 2, having written the record of
    the error exactly once: into the new log file, whose path it reports,
    or, when the directory or the file cannot be created, on the real
    error stream.  When it is the file that cannot be created, the error
    stream receives after that record a warning naming the file and a
    second record, for the error of [os.Create]. *)
Theorem ExitWithError_fatal (e : error) (w : World) :
  IsFatalError E (Some e) = true →
  ∃ w', ExitWithError E (Some e) w = Exited 2 w'
    ∧ ErrorBuffer w' = ErrorBuffer w +:+ error_Error e +:+ LF
    ∧ match os_MkdirAll E (LocalLogDir E), os_Create E (logPath E) with
      | Some derr, _ =>
          Files w' = Files w
          ∧ Stderr w' =
              Stderr w +:+ error_Error e +:+ LF
              +:+ mkdirWarning E derr
              +:+ logRecord E (ErrorBuffer w') e
      | None, Some cerr =>
          Files w' = Files w
          ∧ Stderr w' =
              Stderr w +:+ error_Error e +:+ LF
              +:+ logRecord E (ErrorBuffer w') e
              +:+ createWarning E
              +:+ logRecord E (ErrorBuffer w') cerr
      | None, None =>
          Files w' = <[logPath E := logRecord E (ErrorBuffer w') e]> (Files w)
          ∧ Stderr w' =
              Stderr w +:+ error_Error e +:+ LF +:+ reportLines (logPath E)
      end.
Proof.
  intros Hfatal. rewrite ExitWithError_eq, Hfatal, orb_true_r.
  eexists. split; [reflexivity|].
  unfold afterLoggedError, afterLogPanic, errorLine.
  destruct (os_MkdirAll E (LocalLogDir E)) as [derr|];
    [|destruct (os_Create E (logPath E)) as [cerr|]];
    unfold writeBytes, setFile; simpl;
    rewrite ?append_assoc; auto.
Qed.

End PanicLog.

Lemma logPanic_mkdir_failure_witness :
  os_MkdirAll mkdirFailsEnv (LocalLogDir mkdirFailsEnv)
  = Some (plainError "mkdir .git/lfs/objects/logs: not a directory")
  ∧ ∃ w', logPanic mkdirFailsEnv (plainError "network unreachable") uploadingWorld
          = Returned "" w'
      ∧ Stderr w' =
          Stderr uploadingWorld
          +:+ "Unable to log panic to " +:+ ".git/lfs/objects/logs" +:+ ": "
          +:+ "mkdir .git/lfs/objects/logs: not a directory" +:+ LF +:+ LF
          +:+ logRecord mkdirFailsEnv (ErrorBuffer uploadingWorld)
                (plainError "network unreachable")
      ∧ Files w' = Files uploadingWorld
      ∧ ErrorBuffer w' = ErrorBuffer uploadingWorld
      ∧ Stdout w' = Stdout uploadingWorld.
Proof.
  split; [reflexivity|].
  exact (logPanic_mkdir_failure mkdirFailsEnv (plainError "network unreachable")
           (plainError "mkdir .git/lfs/objects/logs: not a directory")
           uploadingWorld eq_refl).
Defined.



Lemma LoggedError_writes_log_file_witness :
  os_MkdirAll plainEnv (LocalLogDir plainEnv) = None
  ∧ os_Create plainEnv (logPath plainEnv) = None
  ∧ ∃ w', LoggedError plainEnv (Some (plainError "network unreachable"))
            "push of %s failed" [VString "a.bin"] uploadingWorld
          = Returned tt w'
      ∧ ErrorBuffer w' =
          ErrorBuffer uploadingWorld
          +:+ errorLine plainEnv "push of %s failed" [VString "a.bin"]
      ∧ Files w' =
          <[logPath plainEnv :=
              logRecord plainEnv
                (ErrorBuffer uploadingWorld
                 +:+ errorLine plainEnv "push of %s failed" [VString "a.bin"])
                (plainError "network unreachable")]>
            (Files uploadingWorld)
      ∧ Stderr w' =
          Stderr uploadingWorld
          +:+ errorLine plainEnv "push of %s failed" [VString "a.bin"]
          +:+ LF +:+ "Errors logged to " +:+ logPath plainEnv +:+ LF
          +:+ "Use `git lfs logs last` to view the log." +:+ LF
      ∧ Stdout w' = Stdout uploadingWorld.
Proof.
  split; [reflexivity|]. split; [reflexivity|].
  exact (LoggedError_writes_log_file plainEnv (plainError "network unreachable")
           "push of %s failed" [VString "a.bin"] uploadingWorld eq_refl eq_refl).
Defined.

(** C7 as stated fails for a nil error: [LoggedError] prints the message
    and nothing else, so no log file is written and no path is reported. *)
Lemma LoggedError_nil_writes_no_file :
  ∃ w', LoggedError plainEnv None "push failed" [] startWorld = Returned tt w'
    ∧ Files w' = ∅
    ∧ lines (Stderr w') = ["push failed"; ""].
Proof.
  eexists. split; [vm_compute; reflexivity|].
  split; vm_compute; reflexivity.
Qed.

Lemma ExitWithError_fatal_witness :
  IsFatalError fatalEnv (Some (plainError "network unreachable")) = true
  ∧ ∃ w', ExitWithError fatalEnv (Some (plainError "network unreachable"))
            uploadingWorld
          = Exited 2 w'
      ∧ ErrorBuffer w' =
          ErrorBuffer uploadingWorld +:+ "network unreachable" +:+ LF
      ∧ Files w' =
          <[logPath fatalEnv :=
              logRecord fatalEnv (ErrorBuffer w') (plainError "network unreachable")]>
            (Files uploadingWorld)
      ∧ Stderr w' =
          Stderr uploadingWorld +:+ "network unreachable" +:+ LF
          +:+ reportLines (logPath fatalEnv).
Proof.
  split; [reflexivity|].
  exact (ExitWithError_fatal fatalEnv (plainError "network unreachable")
           uploadingWorld eq_refl).
Defined.

(** C2 as stated fails when the log file cannot be created: the error
    stream receives two records, the one of the fatal error and, after the
    warning, the one of the error that [os.Create] returned. *)
Lemma ExitWithError_fatal_two_records :
  IsFatalError createFailsEnv (Some (plainError "network unreachable")) = true
  ∧ ∃ w', ExitWithError createFailsEnv (Some (plainError "network unreachable"))
            startWorld
          = Exited 2 w'
      ∧ Files w' = ∅
      ∧ recordCount (Stderr w') = 2
      ∧ logArtifacts w' ≠ 1
      ∧ lines (Stderr w') =
          ["network unreachable";
           "1.0.0"; "git version 2.40"; ""; "$ git-lfs push origin";
           "network unreachable"; ""; "network unreachable";
           "goroutine 1 [running]:"; ""; "ENV:"; "HOME=/root"; "GIT_DIR=.git";
           "Unable to log panic to .git/lfs/objects/logs/20160102T150405.000000001.log";
           "";
           "1.0.0"; "git version 2.40"; ""; "$ git-lfs push origin";
           "network unreachable"; "";
           "open 20160102T150405.000000001.log: permission denied";
           "goroutine 1 [running]:"; ""; "ENV:"; "HOME=/root"; "GIT_DIR=.git";
           ""].
Proof.
  split; [reflexivity|].
  eexists. split; [vm_compute; reflexivity|].
  split; [vm_compute; reflexivity|].
  split; [vm_compute; reflexivity|].
  split; [vm_compute; discriminate|].
  vm_compute; reflexivity.
Qed.

(** On the other two paths of a fatal error there is one artifact: the
    log file, or the one record on the error stream. *)
Example ExitWithError_fatal_one_file :
  logArtifacts
    (worldOf (ExitWithError fatalEnv (Some (plainError "network unreachable"))
                startWorld)) = 1.
Proof. vm_compute. reflexivity. Qed.

Example ExitWithError_fatal_one_record :
  logArtifacts
    (worldOf (ExitWithError mkdirFailsEnv (Some (plainError "network unreachable"))
                startWorld)) = 1.
Proof. vm_compute. reflexivity. Qed.

(** ** The order of a log record *)

Lemma lines_nonempty (s : string) : lines s ≠ [].
Proof.
  induction s as [|c s IH]; simpl; [discriminate|].
  destruct (Ascii.eqb c "010"); [discriminate|].
  destruct (lines s); discriminate.
Qed.

(** A newline separates the lines before it from the lines after it. *)
Lemma lines_app_LF (a b : string) :
  lines (a +:+ LF +:+ b) = (lines a ++ lines b)%list.
Proof.
  induction a as [|c a IH].
  - reflexivity.
  - rewrite append_cons. simpl. rewrite IH.
    destruct (Ascii.eqb c "010"); [reflexivity|].
    pose proof (lines_nonempty a) as Hne.
    destruct (lines a) as [|l ls]; [congruence | reflexivity].
Qed.

Lemma In_lines_after (x a b : string) :
  In x (lines b) → In x (lines (a +:+ LF +:+ b)).
Proof. intros H. rewrite lines_app_LF. apply in_or_app. now right. Qed.

Lemma In_lines_LF (x b : string) : In x (lines b) → In x (lines (LF +:+ b)).
Proof. intros H. now right. Qed.

Section RecordOrder.

Variable E : Env.

(** A map of one entry is visited in the only possible order. *)
Lemma rangeMap_singleton (k v : string) : rangeMap E {[k := v]} = [(k, v)].
Proof.
  apply Permutation_singleton_r.
  rewrite (rangeMap_perm E), map_to_list_singleton. reflexivity.
Qed.

(** Every entry of the context has its [key=value] line among the context
    lines. *)
Lemma contextLines_lookup (ctx : gmap string string) (k v : string) :
  ctx !! k = Some v →
  ∃ before after,
    contextLines E ctx = before +:+ (k +:+ "=" +:+ v +:+ LF) +:+ after.
Proof.
  intros Hkv. unfold contextLines.
  assert (Hin : (k, v) ∈ rangeMap E ctx).
  { rewrite (rangeMap_perm E). now apply elem_of_map_to_list. }
  apply list_elem_of_split in Hin as (l1 & l2 & ->).
  exists (concat_bytes (map contextLine l1)), (concat_bytes (map contextLine l2)).
  now rewrite map_app, concat_bytes_app.
Qed.

(** C3, amended. [logPanicToWriter] writes, to the error stream or to the
    file it is given, exactly the record of the error, and the record is,
    in this order: the version line, the git version line (or [Error
    getting git version: ] and the description of the failed lookup), a
    blank line, the command line after [$ ], then at once the transcript
    buffer, a newline, the message of the error, then the inner error, a
    [key=value] line for each context entry and the stack bytes of an
    [ErrorWithStack], or else the stack that [errutil.Stack()] captures,
    then a newline, the line [ENV:] and one line for each environment
    variable.  A context [{"retry": "3"}] gives a line [retry=3]. *)
Theorem logPanicToWriter_writes_record (e : error) (w : World) :
  logPanicToWriter E os_Stderr e w
  = Returned tt (writeBytes os_Stderr (logRecord E (ErrorBuffer w) e) w)
  ∧ (∀ name,
       logPanicToWriter E (File name) e w
       = Returned tt (writeBytes (File name) (logRecord E (ErrorBuffer w) e) w))
  ∧ logRecord E (ErrorBuffer w) e =
      VersionDesc E +:+ LF
      +:+ match git_Config_Version E with
          | (_, Some err) => "Error getting git version: " +:+ error_Error err
          | (v, None) => v
          end +:+ LF
      +:+ LF
      +:+ "$ " +:+ filepath_Base E (os_Args0 E)
      +:+ " " +:+ strings_Join (os_ArgsRest E) " " +:+ LF
      +:+ ErrorBuffer w
      +:+ LF
      +:+ error_Error e +:+ LF
      +:+ match asErrorWithStack e with
          | Some err =>
              InnerError err +:+ LF
              +:+ concat_bytes
                    (map (λ kv, kv.1 +:+ "=" +:+ kv.2 +:+ LF)
                         (rangeMap E (Context err)))
              +:+ Stack err
          | None => errutil_Stack E
          end
      +:+ LF +:+ "ENV:" +:+ LF
      +:+ concat_bytes (map (λ env, env +:+ LF) (Environ E))
  ∧ (∀ msg inner stack,
       In "retry=3"
          (lines
             (logRecord E (ErrorBuffer w)
                {| error_Error := msg;
                   asErrorWithStack :=
                     Some {| Context := {["retry" := "3"]};
                             InnerError := inner;
                             Stack := stack |} |}))).
Proof.
  split; [apply logPanicToWriter_direct; typeclasses eauto|].
  split; [intros name; apply logPanicToWriter_direct; typeclasses eauto|].
  split.
  - unfold logRecord, gitVersionLine, commandLine, errorDetail, contextLines,
      environLines.
    destruct (asErrorWithStack e); now rewrite !append_assoc.
  - intros msg inner stack.
    unfold logRecord, errorDetail, contextLines. simpl.
    rewrite rangeMap_singleton. simpl. unfold contextLine. simpl.
    rewrite !append_assoc.
    set (rest := stack +:+ _).
    do 2 apply In_lines_after. apply In_lines_LF.
    do 4 apply In_lines_after.
    change (In "retry=3" (lines ("retry=3" +:+ LF +:+ rest))).
    rewrite lines_app_LF. left. reflexivity.
Qed.

End RecordOrder.

(** C3 as stated fails in the scenario of the specification: no blank line
    stands between the command line and the transcript, against the order
    the specification words ([specRecord]). *)
Lemma logRecord_differs_from_specRecord :
  ∃ w' content,
    logPanicToWriter fatalEnv (File "panic.log")
      (plainError "network unreachable") uploadingWorld
    = Returned tt w'
    ∧ Files w' !! "panic.log" = Some content
    ∧ lines content =
        ["1.0.0"; "git version 2.40"; ""; "$ git-lfs push origin";
         "uploading file"; ""; "network unreachable";
         "goroutine 1 [running]:"; ""; "ENV:"; "HOME=/root"; "GIT_DIR=.git"; ""]
    ∧ lines (specRecord fatalEnv (ErrorBuffer uploadingWorld)
               (plainError "network unreachable")) =
        ["1.0.0"; "git version 2.40"; ""; "$ git-lfs push origin"; "";
         "uploading file"; ""; "network unreachable";
         "goroutine 1 [running]:"; ""; "ENV:"; "HOME=/root"; "GIT_DIR=.git"; ""]
    ∧ content ≠ specRecord fatalEnv (ErrorBuffer uploadingWorld)
                  (plainError "network unreachable").
Proof.
  eexists. eexists. split; [vm_compute; reflexivity|].
  split; [vm_compute; reflexivity|].
  split; [vm_compute; reflexivity|].
  split; [vm_compute; reflexivity|].
  apply String.eqb_neq. vm_compute. reflexivity.
Qed.

(** * Further properties *)

(** ** How the process ends *)

Section Endings.

Variable E : Env.

(** X1. For a non-nil error [ExitWithError] ends the process with status
    2, whatever the debug flag, the classification of the error and the
    answers of the file system: it neither returns nor panics, and no
    other status is used. *)
Theorem ExitWithError_exits_with_2 (e : error) (w : World) :
  ∃ w', ExitWithError E (Some e) w = Exited 2 w'.
Proof.
  rewrite ExitWithError_eq.
  destruct (Debugging w || IsFatalError E (Some e)); eexists; reflexivity.
Qed.

Lemma ExitWithError_nil_eq (w : World) :
  ExitWithError E None w =
  Panicked
    (if Debugging w || IsFatalError E None then w
     else match GetInnerError E None with
          | Some inner => writeBytes ErrorWriter (error_Error inner +:+ LF) w
          | None => w
          end).
Proof.
  unfold ExitWithError, gets, callError, nilDereference.
  unfold mbind, M_bind at 1.
  destruct (Debugging w || IsFatalError E None); [reflexivity|].
  unfold mbind, M_bind, mret, M_ret.
  destruct (GetInnerError E None) as [inner|]; [|reflexivity].
  now rewrite Error_eq.
Qed.

(** X2. For a nil error [ExitWithError] never reaches [os.Exit]: it
    panics on [err.Error()].  No file is written, and nothing is printed
    but, on the path that does not log, the message of an inner error
    should [errutil.GetInnerError] find one. *)
Theorem ExitWithError_nil_panics (w : World) :
  ∃ w', ExitWithError E None w = Panicked w'
    ∧ Files w' = Files w
    ∧ Stdout w' = Stdout w
    ∧ Stderr w' =
        Stderr w +:+
        (if Debugging w || IsFatalError E None then ""
         else match GetInnerError E None with
              | Some inner => error_Error inner +:+ LF
              | None => ""
              end).
Proof.
  rewrite ExitWithError_nil_eq. eexists. split; [reflexivity|].
  destruct (Debugging w || IsFatalError E None);
    [|destruct (GetInnerError E None) as [inner|]];
    unfold writeBytes; simpl; now rewrite ?append_nil_r.
Qed.

(** X3. [Panic] ends the process with status 2 for every error, nil
    included, and every answer of the file system; the transcript has
    gained the message line and nothing else, and standard output
    nothing. *)
Theorem Panic_exits_with_2 (err : option error) (format : string)
    (args : list value) (w : World) :
  ∃ w', Panic E err format args w = Exited 2 w'
    ∧ ErrorBuffer w' = ErrorBuffer w +:+ errorLine E format args
    ∧ Stdout w' = Stdout w.
Proof.
  rewrite Panic_eq. eexists. split; [reflexivity|].
  destruct (afterLoggedError_streams E err format args w) as (rest & _ & Hbuf).
  split; [exact Hbuf|].
  unfold afterLoggedError, afterLogPanic.
  destruct err as [e|]; [|reflexivity].
  destruct (os_MkdirAll E (LocalLogDir E));
    [|destruct (os_Create E (logPath E))]; reflexivity.
Qed.

(** X4. Whatever [LoggedError] logs and wherever the record goes, the
    transcript gains exactly the message line: neither the record written
    to the error stream when no file can be made, nor the warning, nor
    the note of where the log is enters the buffer.  Standard output is
    not written. *)
Theorem LoggedError_transcript (err : option error) (format : string)
    (args : list value) (w : World) :
  ∃ w', LoggedError E err format args w = Returned tt w'
    ∧ ErrorBuffer w' = ErrorBuffer w +:+ errorLine E format args
    ∧ Stdout w' = Stdout w
    ∧ Debugging w' = Debugging w.
Proof.
  rewrite LoggedError_eq. eexists. split; [reflexivity|].
  unfold afterLoggedError, afterLogPanic.
  destruct err as [e|]; [|repeat split].
  destruct (os_MkdirAll E (LocalLogDir E));
    [|destruct (os_Create E (logPath E))]; repeat split.
Qed.

(** ** What [logPanic] leaves alone and what it keeps *)

(** X5. [logPanic] always returns, and touches neither the transcript,
    nor standard output, nor the debug flag, nor any file but the one at
    the path it computes. *)
Theorem logPanic_frame (e : error) (w : World) :
  ∃ path w', logPanic E e w = Returned path w'
    ∧ ErrorBuffer w' = ErrorBuffer w
    ∧ Stdout w' = Stdout w
    ∧ Debugging w' = Debugging w
    ∧ delete (logPath E) (Files w') = delete (logPath E) (Files w).
Proof.
  rewrite logPanic_cases.
  destruct (os_MkdirAll E (LocalLogDir E));
    [|destruct (os_Create E (logPath E))];
    eexists; eexists; (split; [reflexivity|]); repeat split.
  unfold setFile. simpl. apply delete_insert_eq.
Qed.

(** X6. The record is never lost, and the path returned says where it
    is.  Either [logPanic] returns the path it computed, which is not
    empty: the file there holds the record and nothing else, whatever it
    held before, and the error stream is not written.  Or it returns the
    empty path: no file is changed, and the record is on the error
    stream. *)
Theorem logPanic_record_kept (e : error) (w : World) :
  ∃ path w', logPanic E e w = Returned path w'
    ∧ ((path = logPath E ∧ path ≠ ""
        ∧ Files w' !! path = Some (logRecord E (ErrorBuffer w) e)
        ∧ Stderr w' = Stderr w)
       ∨ (path = "" ∧ Files w' = Files w
          ∧ ∃ before after,
              Stderr w' =
                Stderr w +:+ before +:+ logRecord E (ErrorBuffer w) e +:+ after)).
Proof.
  rewrite logPanic_cases.
  destruct (os_MkdirAll E (LocalLogDir E)) as [derr|];
    [|destruct (os_Create E (logPath E)) as [cerr|]];
    eexists; eexists; (split; [reflexivity|]).
  - right. split; [reflexivity|]. split; [reflexivity|].
    exists (mkdirWarning E derr), "".
    unfold writeBytes; simpl. now rewrite append_nil_r.
  - right. split; [reflexivity|]. split; [reflexivity|].
    exists "", (createWarning E +:+ logRecord E (ErrorBuffer w) cerr).
    reflexivity.
  - left. split; [reflexivity|]. split.
    + pose proof logPath_nonempty E as Hne.
      destruct (logPath E); [discriminate | discriminate].
    + split; [|reflexivity]. unfold setFile. simpl. apply lookup_insert_eq.
Qed.

End Endings.

(** ** The lines of a record *)

Lemma lines_noLF (s : string) : hasLF s = false → lines s = [s].
Proof.
  induction s as [|c s IH]; simpl; [reflexivity|].
  intros Hno. apply orb_false_iff in Hno as [Hc Hs].
  rewrite Hc, (IH Hs). reflexivity.
Qed.

(** A text without a newline, written with a newline after it at the
    start of a line, is a line of the whole. *)
Lemma In_lines_here (x b : string) :
  hasLF x = false → In x (lines (x +:+ LF +:+ b)).
Proof.
  intros Hno. rewrite lines_app_LF, (lines_noLF x Hno). now left.
Qed.

Lemma In_lines_concat {A} (f : A → string) (l : list A) (a : A) (rest : string) :
  In a l → hasLF (f a) = false →
  In (f a) (lines (concat_bytes (map (λ x, f x +:+ LF) l) +:+ rest)).
Proof.
  intros Hin Hno. induction l as [|x l IH]; [destruct Hin|].
  simpl. rewrite !append_assoc.
  destruct Hin as [->|Hin].
  - now apply In_lines_here.
  - apply In_lines_after. now apply IH.
Qed.

Lemma hasLF_app (a b : string) : hasLF (a +:+ b) = hasLF a || hasLF b.
Proof.
  induction a as [|c a IH]; [reflexivity|].
  rewrite append_cons. simpl. now rewrite IH, orb_assoc.
Qed.

Section RecordLines.

Variable E : Env.

Lemma In_lines_logRecord_tail (x transcript : string) (e : error) :
  In x (lines (errorDetail E e +:+ LF +:+ "ENV:" +:+ LF +:+ environLines E)) →
  In x (lines (logRecord E transcript e)).
Proof.
  intros Hin. unfold logRecord.
  do 2 apply In_lines_after. apply In_lines_LF.
  do 3 apply In_lines_after. exact Hin.
Qed.

(** X7. Every record that [logPanicToWriter] writes has the line [ENV:],
    whatever the error, the transcript and the environment. *)
Theorem record_has_ENV_line (e : error) (w : World) :
  ∃ text,
    logPanicToWriter E os_Stderr e w = Returned tt (writeBytes os_Stderr text w)
    ∧ (∀ name, logPanicToWriter E (File name) e w
               = Returned tt (writeBytes (File name) text w))
    ∧ In "ENV:" (lines text).
Proof.
  exists (logRecord E (ErrorBuffer w) e).
  split; [apply logPanicToWriter_direct; typeclasses eauto|].
  split; [intros name; apply logPanicToWriter_direct; typeclasses eauto|].
  apply In_lines_logRecord_tail, In_lines_after.
  now apply In_lines_here.
Qed.

(** X8. Every environment variable that holds no newline is a line of the
    record. *)
Theorem record_has_environment_line (e : error) (w : World) (variable : string) :
  In variable (Environ E) →
  hasLF variable = false →
  ∃ text,
    logPanicToWriter E os_Stderr e w = Returned tt (writeBytes os_Stderr text w)
    ∧ (∀ name, logPanicToWriter E (File name) e w
               = Returned tt (writeBytes (File name) text w))
    ∧ In variable (lines text).
Proof.
  intros Hin Hno. exists (logRecord E (ErrorBuffer w) e).
  split; [apply logPanicToWriter_direct; typeclasses eauto|].
  split; [intros name; apply logPanicToWriter_direct; typeclasses eauto|].
  apply In_lines_logRecord_tail. do 2 apply In_lines_after.
  unfold environLines.
  rewrite <- (append_nil_r (concat_bytes _)).
  now apply (In_lines_concat (λ x : string, x)).
Qed.

(** X9. For an error that implements [ErrorWithStack], every entry of the
    context whose key and value hold no newline gives the line
    [key=value] of the record, in whatever order the map is ranged
    over. *)
Theorem record_has_context_line (e : error) (err : ErrorWithStack) (w : World)
    (key val : string) :
  asErrorWithStack e = Some err →
  Context err !! key = Some val →
  hasLF key = false →
  hasLF val = false →
  ∃ text,
    logPanicToWriter E os_Stderr e w = Returned tt (writeBytes os_Stderr text w)
    ∧ (∀ name, logPanicToWriter E (File name) e w
               = Returned tt (writeBytes (File name) text w))
    ∧ In (key +:+ "=" +:+ val) (lines text).
Proof.
  intros Hcap Hkv Hkey Hval. exists (logRecord E (ErrorBuffer w) e).
  split; [apply logPanicToWriter_direct; typeclasses eauto|].
  split; [intros name; apply logPanicToWriter_direct; typeclasses eauto|].
  apply In_lines_logRecord_tail.
  unfold errorDetail. rewrite Hcap. rewrite !append_assoc.
  apply In_lines_after. unfold contextLines.
  assert (Hin : In (key, val) (rangeMap E (Context err))).
  { apply list_elem_of_In. rewrite (rangeMap_perm E).
    now apply elem_of_map_to_list. }
  assert (Hno : hasLF ((key, val).1 +:+ "=" +:+ (key, val).2) = false).
  { simpl. rewrite !hasLF_app, Hkey, Hval. reflexivity. }
  pose proof (In_lines_concat (λ kv : string * string, kv.1 +:+ "=" +:+ kv.2)
                (rangeMap E (Context err)) (key, val)
                (Stack err +:+ LF +:+ "ENV:" +:+ LF +:+ environLines E)
                Hin Hno) as Hline.
  simpl in Hline.
  replace (map contextLine (rangeMap E (Context err)))
    with (map (λ x : string * string, (x.1 +:+ "=" +:+ x.2) +:+ LF)
              (rangeMap E (Context err))).
  - exact Hline.
  - apply map_ext. intros [k v]. unfold contextLine. simpl.
    now rewrite !append_assoc.
Qed.

End RecordLines.

(** ** Whole lines *)

Lemma endsWithLF_app_cons (a : string) (c : ascii) (b : string) :
  endsWithLF (a +:+ String c b) = endsWithLF (String c b).
Proof.
  induction a as [|x a IH]; [reflexivity|].
  rewrite append_cons.
  change (endsWithLF (String x (a +:+ String c b)))
    with (match a +:+ String c b with
          | "" => Ascii.eqb x "010"
          | _ => endsWithLF (a +:+ String c b)
          end).
  rewrite <- IH. destruct a; reflexivity.
Qed.

Lemma endsWithLF_LF (a : string) : endsWithLF (a +:+ LF) = true.
Proof. unfold LF. now rewrite endsWithLF_app_cons. Qed.

Lemma completeLines_LF (a : string) : completeLines (a +:+ LF) = true.
Proof.
  unfold completeLines. rewrite endsWithLF_LF. now destruct (a +:+ LF).
Qed.

Lemma completeLines_app (a b : string) :
  completeLines a = true → completeLines b = true →
  completeLines (a +:+ b) = true.
Proof.
  intros Ha Hb. destruct b as [|c b]; [now rewrite append_nil_r|].
  unfold completeLines in *. rewrite endsWithLF_app_cons, Hb.
  now destruct (a +:+ String c b).
Qed.

Lemma nonempty_prefix (c : ascii) (a b : string) :
  (0 <? String.length (String c a +:+ b))%nat = true.
Proof. reflexivity. Qed.

(** The bit that [requireStdin] masks out is bit 21 of the mode. *)
Lemma land_ModeCharDevice (mode : Z) :
  (Z.land mode os_ModeCharDevice =? 0)%Z = negb (Z.testbit mode 21).
Proof.
  assert (Hland : Z.land mode os_ModeCharDevice
                  = if Z.testbit mode 21 then os_ModeCharDevice else 0%Z).
  { apply Z.bits_inj'. intros n Hn.
    rewrite Z.land_spec.
    change os_ModeCharDevice with (2 ^ 21)%Z.
    rewrite Z.pow2_bits_eqb by lia.
    destruct (Z.testbit mode 21) eqn:Hbit.
    - rewrite Z.pow2_bits_eqb by lia.
      destruct (Z.eqb_spec 21 n) as [<-|Hne];
        [now rewrite Hbit | apply andb_false_r].
    - rewrite Z.bits_0.
      destruct (Z.eqb_spec 21 n) as [<-|Hne];
        [now rewrite Hbit | apply andb_false_r]. }
  rewrite Hland. now destruct (Z.testbit mode 21).
Qed.

Section RestOfCommands.

Variable H : Host.

Lemma Debug_eq (format : string) (args : list value) (w : World) :
  Debug H format args w
  = Returned tt
      (if Debugging w then writeBytes ErrorWriter (debugLine H format args) w
       else w).
Proof.
  unfold Debug, debugLine, gets, log_Printf, Write, mbind, M_bind, mret, M_ret.
  destruct (Debugging w); simpl; [|reflexivity].
  destruct (Sprintf (env H) format args) as [|c s]; [reflexivity|].
  change (String.length (String c s) =? 0)%nat with false.
  rewrite orb_false_l.
  now destruct (endsWithLF (String c s)).
Qed.

Lemma debugLine_whole (format : string) (args : list value) :
  endsWithLF (debugLine H format args) = true.
Proof.
  unfold debugLine.
  destruct (endsWithLF (Sprintf (env H) format args)) eqn:Hs.
  - rewrite append_nil_r.
    destruct (Sprintf (env H) format args) as [|c s]; [discriminate|].
    now rewrite endsWithLF_app_cons.
  - rewrite <- append_assoc. apply endsWithLF_LF.
Qed.

(** X10. With the debug flag unset [Debug] does nothing.  With the flag
    set it writes, through [ErrorWriter] and so to the error stream and
    to the transcript alike, the logger's header and the formatted
    message as one whole line: a newline is added exactly when the
    message does not end in one. *)
Theorem Debug_writes_one_line (format : string) (args : list value) (w : World) :
  ∃ w', Debug H format args w = Returned tt w'
    ∧ Stdout w' = Stdout w
    ∧ Files w' = Files w
    ∧ (if Debugging w
       then Stderr w' = Stderr w +:+ debugLine H format args
            ∧ ErrorBuffer w' = ErrorBuffer w +:+ debugLine H format args
       else w' = w)
    ∧ debugLine H format args =
        log_header H +:+ Sprintf (env H) format args
        +:+ (if endsWithLF (Sprintf (env H) format args) then "" else LF)
    ∧ endsWithLF (debugLine H format args) = true.
Proof.
  rewrite Debug_eq. eexists. split; [reflexivity|].
  destruct (Debugging w); repeat split; apply debugLine_whole.
Qed.

Lemma requireStdin_eq (msg : string) (w : World) :
  requireStdin H msg w =
  match os_Stdin_Stat H with
  | (_, Some err) =>
      Exited 1
        (writeBytes ErrorWriter
           ("Cannot read from STDIN. " +:+ msg +:+ " (" +:+ error_Error err
            +:+ ")" +:+ LF) w)
  | (mode, None) =>
      if Z.testbit mode 21
      then Exited 1
             (writeBytes ErrorWriter ("Cannot read from STDIN. " +:+ msg +:+ LF) w)
      else Returned tt w
  end.
Proof.
  unfold requireStdin.
  destruct (os_Stdin_Stat H) as [mode [err|]].
  - rewrite nonempty_prefix. unfold mbind, M_bind.
    rewrite Error_eq. unfold errorLine. now rewrite !append_assoc.
  - rewrite land_ModeCharDevice, negb_involutive.
    destruct (Z.testbit mode 21); [|reflexivity].
    rewrite nonempty_prefix. unfold mbind, M_bind.
    rewrite Error_eq. unfold errorLine. now rewrite !append_assoc.
Qed.

(** X11. [requireStdin] returns, having written nothing, exactly when
    [os.Stdin.Stat()] succeeds and bit 21 of the mode (a character
    device) is clear.  Otherwise it ends the process with status 1,
    having written one line to the error stream and the transcript:
    [Cannot read from STDIN. ] and the caller's message as it is,
    followed by the error of [Stat] in brackets if it failed.  No file is
    written. *)
Theorem requireStdin_cases (msg : string) (w : World) :
  ∃ w', Files w' = Files w ∧ Stdout w' = Stdout w ∧
    match os_Stdin_Stat H with
    | (_, Some err) =>
        requireStdin H msg w = Exited 1 w'
        ∧ Stderr w' =
            Stderr w +:+ "Cannot read from STDIN. " +:+ msg
            +:+ " (" +:+ error_Error err +:+ ")" +:+ LF
        ∧ ErrorBuffer w' =
            ErrorBuffer w +:+ "Cannot read from STDIN. " +:+ msg
            +:+ " (" +:+ error_Error err +:+ ")" +:+ LF
    | (mode, None) =>
        if Z.testbit mode 21
        then requireStdin H msg w = Exited 1 w'
             ∧ Stderr w' = Stderr w +:+ "Cannot read from STDIN. " +:+ msg +:+ LF
             ∧ ErrorBuffer w' =
                 ErrorBuffer w +:+ "Cannot read from STDIN. " +:+ msg +:+ LF
        else requireStdin H msg w = Returned tt w' ∧ w' = w
    end.
Proof.
  rewrite requireStdin_eq.
  destruct (os_Stdin_Stat H) as [mode [err|]];
    [|destruct (Z.testbit mode 21)];
    eexists; (split; [|split; [|split; [reflexivity|]]]);
    try reflexivity; unfold writeBytes; simpl; auto.
Qed.

(** X12. In a repository [requireInRepo] returns and writes nothing.
    Outside one it ends the process with status 128, and its one line
    goes through [OutputWriter]: to standard output and the transcript,
    not to the error stream. *)
Theorem requireInRepo_cases (w : World) :
  ∃ w', Files w' = Files w ∧ Stderr w' = Stderr w ∧
    if lfs_InRepo H
    then requireInRepo H w = Returned tt w' ∧ w' = w
    else requireInRepo H w = Exited 128 w'
         ∧ Stdout w' =
             Stdout w +:+ Sprintf (env H) "Not in a git repository." [] +:+ LF
         ∧ ErrorBuffer w' =
             ErrorBuffer w +:+ Sprintf (env H) "Not in a git repository." [] +:+ LF.
Proof.
  unfold requireInRepo.
  destruct (lfs_InRepo H); eexists;
    (split; [|split; [|split; [reflexivity|]]]); repeat split.
Qed.

Lemma help_eq (args : list string) (w : World) :
  help H args w
  = Returned tt (writeBytes os_Stderr (helpPage H (hd "git-lfs" args)) w).
Proof.
  unfold help, printHelp, helpPage, Write.
  destruct args as [|a rest]; simpl;
    [destruct (ManPages H !! "git-lfs") | destruct (ManPages H !! a)];
    reflexivity.
Qed.

(** X13. [help] and [usage] return, [usage] with a nil error, and write
    one text ending in a newline to the real error stream only: not to
    standard output, the transcript or a file.  The text is the page of
    the topic with the white space around it trimmed, or, when [ManPages]
    has no page for the topic, a line saying so that quotes the topic.
    The topic of [help] is its first argument, or [git-lfs] when it has
    none. *)
Theorem help_writes_to_stderr_only (args : list string) (name : string) (w : World) :
  (∃ w', help H args w = Returned tt w'
     ∧ Stderr w' = Stderr w +:+ helpPage H (hd "git-lfs" args)
     ∧ ErrorBuffer w' = ErrorBuffer w ∧ Stdout w' = Stdout w
     ∧ Files w' = Files w)
  ∧ (∃ w', usage H name w = Returned None w'
       ∧ Stderr w' = Stderr w +:+ helpPage H name
       ∧ ErrorBuffer w' = ErrorBuffer w ∧ Stdout w' = Stdout w
       ∧ Files w' = Files w)
  ∧ (∀ topic,
       helpPage H topic =
         match ManPages H !! topic with
         | Some txt => strings_TrimSpace H txt +:+ LF
         | None =>
             "Sorry, no usage text found for " +:+ strconv_Quote H topic +:+ LF
         end
       ∧ endsWithLF (helpPage H topic) = true).
Proof.
  split; [|split].
  - rewrite help_eq. eexists. split; [reflexivity|]. repeat split.
  - unfold usage, printHelp, helpPage, Write, mbind, M_bind, mret, M_ret.
    destruct (ManPages H !! name); eexists;
      (split; [reflexivity|]); repeat split.
  - intros topic. split; [reflexivity|]. unfold helpPage.
    destruct (ManPages H !! topic); [apply endsWithLF_LF|].
    rewrite <- append_assoc. apply endsWithLF_LF.
Qed.

End RestOfCommands.

(** ** The transcript over a whole run *)

Section Runs.

Variable H : Host.

Lemma doAction_transcript (a : action) (w : World) :
  ∃ added,
    ErrorBuffer (worldOf (doAction H a w)) = ErrorBuffer w +:+ added
    ∧ completeLines added = true.
Proof.
  destruct a as [format args|format args|format args|format args
                |err format args|err format args|err|msg| |args]; simpl doAction.
  - exists (Sprintf (env H) format args +:+ LF).
    split; [reflexivity | apply completeLines_LF].
  - rewrite Error_eq. exists (errorLine (env H) format args).
    split; [reflexivity | apply completeLines_LF].
  - rewrite Debug_eq. destruct (Debugging w).
    + exists (debugLine H format args). split; [reflexivity|].
      unfold completeLines. rewrite debugLine_whole.
      now destruct (debugLine H format args).
    + exists "". split; [now rewrite append_nil_r | reflexivity].
  - rewrite Exit_eq. exists (errorLine (env H) format args).
    split; [reflexivity | apply completeLines_LF].
  - rewrite LoggedError_eq.
    destruct (afterLoggedError_streams (env H) err format args w)
      as (rest & _ & Hbuf).
    exists (errorLine (env H) format args).
    split; [exact Hbuf | apply completeLines_LF].
  - rewrite Panic_eq.
    destruct (afterLoggedError_streams (env H) err format args w)
      as (rest & _ & Hbuf).
    exists (errorLine (env H) format args).
    split; [exact Hbuf | apply completeLines_LF].
  - destruct err as [e|].
    + rewrite ExitWithError_eq.
      destruct (Debugging w || IsFatalError (env H) (Some e)).
      * destruct (afterLoggedError_streams (env H) (Some e) (error_Error e) [] w)
          as (rest & _ & Hbuf).
        exists (errorLine (env H) (error_Error e) []).
        split; [exact Hbuf | apply completeLines_LF].
      * destruct (GetInnerError (env H) (Some e)) as [inner|].
        -- exists ((error_Error inner +:+ LF) +:+ (error_Error e +:+ LF)).
           split; [unfold writeBytes; simpl; now rewrite !append_assoc|].
           apply completeLines_app; apply completeLines_LF.
        -- exists (error_Error e +:+ LF).
           split; [reflexivity | apply completeLines_LF].
    + rewrite ExitWithError_nil_eq.
      destruct (Debugging w || IsFatalError (env H) None);
        [|destruct (GetInnerError (env H) None) as [inner|]].
      * exists "". split; [now rewrite append_nil_r | reflexivity].
      * exists (error_Error inner +:+ LF).
        split; [reflexivity | apply completeLines_LF].
      * exists "". split; [now rewrite append_nil_r | reflexivity].
  - rewrite requireStdin_eq.
    destruct (os_Stdin_Stat H) as [mode [err|]];
      [|destruct (Z.testbit mode 21)].
    + eexists. split; [reflexivity|].
      rewrite <- !append_assoc. apply completeLines_LF.
    + eexists. split; [reflexivity|].
      rewrite <- !append_assoc. apply completeLines_LF.
    + exists "". split; [now rewrite append_nil_r | reflexivity].
  - unfold requireInRepo. destruct (lfs_InRepo H).
    + exists "". split; [now rewrite append_nil_r | reflexivity].
    + exists (Sprintf (env H) "Not in a git repository." [] +:+ LF).
      split; [reflexivity | apply completeLines_LF].
  - rewrite help_eq.
    exists "". split; [now rewrite append_nil_r | reflexivity].
Qed.

(** X14. Over any sequence of calls of [Print], [Error], [Debug], [Exit],
    [LoggedError], [Panic], [ExitWithError], [requireStdin],
    [requireInRepo] and [help], run until one of them ends the process,
    the transcript only grows, and by whole lines: what it held at the
    start is still its beginning, and what was added is empty or ends in
    a newline. *)
Theorem transcript_grows_by_whole_lines (actions : list action) (w : World) :
  ∃ added,
    ErrorBuffer (worldOf (forRange actions (doAction H) w))
    = ErrorBuffer w +:+ added
    ∧ completeLines added = true.
Proof.
  revert w. induction actions as [|a actions IH]; intros w.
  - exists "". split; [simpl; now rewrite append_nil_r | reflexivity].
  - destruct (doAction_transcript a w) as (added & Hbuf & Hwhole).
    simpl forRange. unfold mbind, M_bind.
    destruct (doAction H a w) as [[] w1|code w1|w1];
      simpl in Hbuf; [|now exists added|now exists added].
    destruct (IH w1) as (added' & Hbuf' & Hwhole').
    exists (added +:+ added'). split.
    + now rewrite Hbuf', Hbuf, append_assoc.
    + now apply completeLines_app.
Qed.

End Runs.

(** ** What was printed reaches the log *)

Section PrintedThenLogged.

Variable E : Env.

Lemma forRange_doCall_world (calls : list call) (w : World) :
  ∃ w1, forRange calls (doCall E) w = Returned tt w1
    ∧ ErrorBuffer w1 = ErrorBuffer w +:+ concat_bytes (map (lineWritten E) calls)
    ∧ Files w1 = Files w.
Proof.
  revert w. induction calls as [|c calls IH]; intros w.
  - exists w. simpl. now rewrite append_nil_r.
  - simpl forRange. unfold mbind, M_bind. rewrite doCall_eq.
    destruct (IH (writeBytes (if isPrint c then OutputWriter else ErrorWriter)
                             (lineWritten E c) w))
      as (w1 & Hrun & Hbuf & Hfiles).
    exists w1. split; [exact Hrun|].
    rewrite Hbuf, Hfiles. simpl.
    destruct c; unfold writeBytes; simpl; now rewrite ?append_assoc.
Qed.

(** X15. When the log file can be made, the log that [LoggedError]
    writes after any calls of [Print] and [Error] holds, as its
    transcript, what the buffer held before them, then the line of each
    of those calls in call order, then the message line of [LoggedError]
    itself. *)
Theorem printed_lines_reach_the_log (calls : list call) (e : error)
    (format : string) (args : list value) (w : World) :
  os_MkdirAll E (LocalLogDir E) = None →
  os_Create E (logPath E) = None →
  ∃ w', (forRange calls (doCall E) ;; LoggedError E (Some e) format args) w
        = Returned tt w'
    ∧ Files w' !! logPath E =
        Some (logRecord E
                (ErrorBuffer w +:+ concat_bytes (map (lineWritten E) calls)
                 +:+ errorLine E format args) e).
Proof.
  intros Hmkdir Hcreate.
  destruct (forRange_doCall_world calls w) as (w1 & Hrun & Hbuf & _).
  unfold mbind, M_bind. rewrite Hrun, LoggedError_eq.
  eexists. split; [reflexivity|].
  unfold afterLoggedError, afterLogPanic. rewrite Hmkdir, Hcreate.
  unfold writeBytes, setFile. simpl.
  rewrite lookup_insert_eq, Hbuf. now rewrite !append_assoc.
Qed.

End PrintedThenLogged.

(** ** Instances *)

Lemma record_has_environment_line_witness :
  In "HOME=/root" (Environ fatalEnv)
  ∧ hasLF "HOME=/root" = false
  ∧ ∃ text,
      logPanicToWriter fatalEnv os_Stderr (plainError "network unreachable")
        uploadingWorld
      = Returned tt (writeBytes os_Stderr text uploadingWorld)
      ∧ (∀ name,
           logPanicToWriter fatalEnv (File name) (plainError "network unreachable")
             uploadingWorld
           = Returned tt (writeBytes (File name) text uploadingWorld))
      ∧ In "HOME=/root" (lines text).
Proof.
  split; [left; reflexivity|]. split; [reflexivity|].
  apply (record_has_environment_line fatalEnv (plainError "network unreachable")
           uploadingWorld "HOME=/root"); [left; reflexivity | reflexivity].
Defined.

Lemma record_has_context_line_witness :
  asErrorWithStack contextError
  = Some {| Context := {["retry" := "3"; "oid" := "abc123"]};
            InnerError := "connection reset";
            Stack := "goroutine 7 [running]:" +:+ LF |}
  ∧ ({["retry" := "3"; "oid" := "abc123"]} : gmap string string) !! "oid"
    = Some "abc123"
  ∧ hasLF "oid" = false
  ∧ hasLF "abc123" = false
  ∧ ∃ text,
      logPanicToWriter fatalEnv os_Stderr contextError uploadingWorld
      = Returned tt (writeBytes os_Stderr text uploadingWorld)
      ∧ (∀ name,
           logPanicToWriter fatalEnv (File name) contextError uploadingWorld
           = Returned tt (writeBytes (File name) text uploadingWorld))
      ∧ In ("oid" +:+ "=" +:+ "abc123") (lines text).
Proof.
  split; [reflexivity|]. split; [vm_compute; reflexivity|].
  split; [reflexivity|]. split; [reflexivity|].
  apply (record_has_context_line fatalEnv contextError
           {| Context := {["retry" := "3"; "oid" := "abc123"]};
              InnerError := "connection reset";
              Stack := "goroutine 7 [running]:" +:+ LF |}
           uploadingWorld "oid" "abc123");
    [reflexivity | vm_compute; reflexivity | reflexivity | reflexivity].
Defined.

Lemma printed_lines_reach_the_log_witness :
  os_MkdirAll plainEnv (LocalLogDir plainEnv) = None
  ∧ os_Create plainEnv (logPath plainEnv) = None
  ∧ ∃ w',
      (forRange [CallPrint "uploading %s" [VString "a.bin"];
                 CallError "retrying" []] (doCall plainEnv) ;;
       LoggedError plainEnv (Some (plainError "network unreachable"))
         "push failed" []) startWorld
      = Returned tt w'
      ∧ Files w' !! logPath plainEnv =
          Some (logRecord plainEnv
                  (ErrorBuffer startWorld
                   +:+ concat_bytes
                         (map (lineWritten plainEnv)
                            [CallPrint "uploading %s" [VString "a.bin"];
                             CallError "retrying" []])
                   +:+ errorLine plainEnv "push failed" [])
                  (plainError "network unreachable")).
Proof.
  split; [reflexivity|]. split; [reflexivity|].
  apply (printed_lines_reach_the_log plainEnv
           [CallPrint "uploading %s" [VString "a.bin"]; CallError "retrying" []]
           (plainError "network unreachable") "push failed" [] startWorld);
    reflexivity.
Defined.

(** The log of that run, line by line. *)
Example printed_lines_in_the_log :
  (λ w', lines <$> (Files w' !! logPath plainEnv))
    (worldOf
       ((forRange [CallPrint "uploading %s" [VString "a.bin"];
                   CallError "retrying" []] (doCall plainEnv) ;;
         LoggedError plainEnv (Some (plainError "network unreachable"))
           "push failed" []) startWorld))
  = Some ["1.0.0"; "git version 2.40"; ""; "$ git-lfs push origin";
          "uploading a.bin"; "retrying"; "push failed"; "";
          "network unreachable"; "goroutine 1 [running]:"; ""; "ENV:";
          "HOME=/root"; "GIT_DIR=.git"; ""].
Proof. vm_compute. reflexivity. Qed.

(** Standard input is a terminal: [requireStdin] prints the message as it
    is, a [%] included, and ends the process with status 1. *)
Example requireStdin_terminal :
  (λ o, match o with
        | Exited code w' => Some (code, lines (Stderr w'), ErrorBuffer w' =? Stderr w')
        | _ => None
        end)
    (requireStdin (exampleHost plainEnv (Z.lor os_ModeCharDevice 400, None) true)
       "100% of the input is missing" startWorld)
  = Some (1%Z, ["Cannot read from STDIN. 100% of the input is missing"; ""], true).
Proof. vm_compute. reflexivity. Qed.

(** Standard input is a pipe: [requireStdin] returns. *)
Example requireStdin_pipe :
  requireStdin (exampleHost plainEnv (Z.shiftl 1 25, None) true) "no input"
    startWorld
  = Returned tt startWorld.
Proof. vm_compute. reflexivity. Qed.

Example help_default_topic :
  lines (Stderr (worldOf (help (exampleHost plainEnv (0%Z, None) true) []
                            startWorld)))
  = ["git-lfs(1)"; ""].
Proof. vm_compute. reflexivity. Qed.

Example help_missing_topic :
  lines (Stderr (worldOf (help (exampleHost plainEnv (0%Z, None) true)
                            ["frobnicate"; "push"] startWorld)))
  = ["Sorry, no usage text found for " +:+ exampleQuote "frobnicate"; ""].
Proof. vm_compute. reflexivity. Qed.
